(** * Google Task List: a shallow embedding of the task-reconciliation core

    The development follows the Python sources of the integration:

    - [google_sheet_clients.py]: [get_tasks], [update_task_status],
      [log_action];
    - [coordinator.py]: [cron_run_required], the refresh scheduler,
      [_async_update_data], [async_complete_task],
      [async_incomplete_pending_task];
    - [google_task_list/button.py]: the button entity and [async_press].

    Python dictionaries are finite maps from strings to dynamically typed
    values.  Task dictionaries are mutable objects shared between the
    published list and whoever holds an older list, so they live in an
    explicit store and lists hold references to them. *)

From Stdlib Require Import ZArith Lia Ascii String.
From stdpp Require Import base option list strings gmap.

Local Open Scope string_scope.
Local Open Scope list_scope.
Set Warnings "-clear-no-such-hyp".

(** ** Python values *)

Module Py.

(** The values that occur in task dictionaries: [None], booleans, the
    integers that gspread produces for numeric cells, and strings.
    Cells that gspread would turn into floating point numbers are not
    represented. *)
Inductive value :=
| VNone
| VBool (b : bool)
| VInt (n : Z)
| VStr (s : string).

#[global] Instance value_eq_dec : EqDecision value.
Proof. solve_decision. Defined.

#[global] Instance value_countable : Countable value.
Proof.
  refine (inj_countable'
    (fun v => match v with
              | VNone => inl (inl ())
              | VBool b => inl (inr b)
              | VInt n => inr (inl n)
              | VStr s => inr (inr s)
              end)
    (fun x => match x with
              | inl (inl _) => VNone
              | inl (inr b) => VBool b
              | inr (inl n) => VInt n
              | inr (inr s) => VStr s
              end) _).
  by intros [].
Defined.

(** [bool(v)]: the truth value Python gives to [v]. *)
Definition truthy (v : value) : bool :=
  match v with
  | VNone => false
  | VBool b => b
  | VInt n => negb (n =? 0)%Z
  | VStr s => negb (String.eqb s "")
  end.

(** [v is None]. *)
Definition is_none (v : value) : bool :=
  match v with VNone => true | _ => false end.

(** [bool] is a subclass of [int]: [True == 1] and [False == 0], and
    both hash alike.  [hash_key] sends a value to the representative
    under which a dictionary files it. *)
Definition hash_key (v : value) : value :=
  match v with
  | VBool b => VInt (if b then 1 else 0)
  | _ => v
  end.

(** [v == w]. *)
Definition py_eqb (v w : value) : bool :=
  bool_decide (hash_key v = hash_key w).

(** A dictionary with string keys. *)
Abbreviation dict := (gmap string value).

(** [d.get(k)]: [None] when the key is absent. *)
Definition get (d : dict) (k : string) : value :=
  default VNone (d !! k).

(** [d.get(k, dflt)]. *)
Definition get_d (d : dict) (k : string) (dflt : value) : value :=
  default dflt (d !! k).

(** [bool(d)] for a dictionary: false exactly for the empty one. *)
Definition dict_truthy (d : dict) : bool :=
  negb (bool_decide (d = ∅)).

(** *** [str.lower], [str.upper] and [str.strip]

    A string is the sequence of the UTF-8 bytes of the Python string.
    What the three methods do depends on the Unicode character
    database; they are parameters of the development. *)
Class StrLib := {
  lower : string -> string;    (* [s.lower()] *)
  upper : string -> string;    (* [s.upper()] *)
  strip : string -> string     (* [s.strip()] *)
}.

(** *** The three methods on ASCII text

    On text that consists of ASCII characters only, the methods act as
    follows; the examples use this instance, on ASCII text. *)

Definition lower_ascii (c : ascii) : ascii :=
  if (Ascii.leb "A" c && Ascii.leb c "Z")%bool
  then ascii_of_nat (nat_of_ascii c + 32)
  else c.

Fixpoint ascii_lower (s : string) : string :=
  match s with
  | EmptyString => EmptyString
  | String c s' => String (lower_ascii c) (ascii_lower s')
  end.

Definition upper_ascii (c : ascii) : ascii :=
  if (Ascii.leb "a" c && Ascii.leb c "z")%bool
  then ascii_of_nat (nat_of_ascii c - 32)
  else c.

Fixpoint ascii_upper (s : string) : string :=
  match s with
  | EmptyString => EmptyString
  | String c s' => String (upper_ascii c) (ascii_upper s')
  end.

(** The ASCII characters for which [str.isspace] holds. *)
Definition is_space (c : ascii) : bool :=
  let n := nat_of_ascii c in
  ((9 <=? n) && (n <=? 13) || (28 <=? n) && (n <=? 32))%nat%bool.

Fixpoint ascii_lstrip (s : string) : string :=
  match s with
  | EmptyString => EmptyString
  | String c s' => if is_space c then ascii_lstrip s' else s
  end.

Fixpoint ascii_rstrip (s : string) : string :=
  match s with
  | EmptyString => EmptyString
  | String c s' =>
      match ascii_rstrip s' with
      | EmptyString => if is_space c then EmptyString else String c EmptyString
      | r => String c r
      end
  end.

Definition ascii_strip (s : string) : string := ascii_rstrip (ascii_lstrip s).

Definition ascii_text : StrLib :=
  {| lower := ascii_lower; upper := ascii_upper; strip := ascii_strip |}.

End Py.

Import Py.

(** Results of operations that may raise. *)
Inductive result (E A : Type) :=
| Ok (a : A)
| Err (e : E).
Arguments Ok {E A} a.
Arguments Err {E A} e.

(** ** google_sheet_clients.py *)

Module Sheets.

(** A row as [get_all_records] returns it: the header cells paired
    with the row's cells, in column order. *)
Definition raw_row := list (string * value).

Inductive error :=
| StoreError (msg : string)            (* raised by gspread *)
| NoTasksFound                         (* ValueError("No tasks found in sheet") *)
| MissingColumns (cols : list string). (* ValueError("Missing required column(s): ...") *)

(** [v.strip() if isinstance(v, str) else v] *)
Definition strip_value {S : StrLib} (v : value) : value :=
  match v with
  | VStr s => VStr (strip s)
  | _ => v
  end.

(** [{k.lower(): v.strip() if isinstance(v, str) else v
      for k, v in task.items()}]: later columns overwrite earlier ones
    whose lowered header is the same. *)
Definition task_lower {S : StrLib} (task : raw_row) : dict :=
  foldl (fun d kv => <[lower kv.1 := strip_value kv.2]> d) ∅ task.

(** [x or None] *)
Definition or_none (o : option value) : value :=
  match o with
  | Some v => if truthy v then v else VNone
  | None => VNone
  end.

(** The body of the loop of [get_tasks].  The last step, copying every
    key of [task_lower] that [cleaned_task] does not have yet, is the
    left-biased union. *)
Definition clean_task {S : StrLib} (task : raw_row) : dict :=
  let tl := task_lower task in
  let cleaned_task : dict :=
    <["visible" := get_d tl "visible" (VBool true)]>
    (<["last_completed" := get_d tl "last_completed" (VStr "")]>
    (<["cron_frequency" := or_none (tl !! "cron_frequency")]>
    (<["assigned_to" := get_d tl "assigned_to" (VStr "unknown")]>
    (<["task" := get_d tl "task" (VStr "")]> ∅)))) in
  cleaned_task ∪ tl.

Definition required_fields : list string :=
  ["task"; "cron_frequency"; "last_completed"].

(** [required_fields - set(d.keys())] *)
Definition missing_fields (d : dict) : list string :=
  filter (fun k => d !! k = None) required_fields.

(** [get_tasks], applied to the rows that [get_all_records] returned. *)
Definition get_tasks {S : StrLib} (tasks : list raw_row)
    : result error (list dict) :=
  let normalized := map clean_task tasks in
  match normalized with
  | [] => Err NoTasksFound
  | first :: _ =>
      match missing_fields first with
      | [] => Ok normalized
      | missing => Err (MissingColumns missing)
      end
  end.

End Sheets.

(** ** coordinator.py *)

(** The [datetime], [zoneinfo] and [croniter] facilities that
    [cron_run_required] calls.  An operation that may raise returns an
    [option]; [None] stands for the exception. *)
Class TimeLib := {
  datetime : Type;
  tzinfo : Type;
  dt_tzinfo : datetime -> tzinfo;                (* [d.tzinfo] *)
  fromisoformat : string -> option datetime;     (* [datetime.fromisoformat(s)] *)
  astimezone : datetime -> tzinfo -> datetime;   (* [d.astimezone(tz)] *)
  year_one : tzinfo -> datetime;                 (* [datetime(1, 1, 1, tzinfo=tz)] *)
  croniter_get_next : value -> datetime -> option datetime;
                                   (* [croniter(expr, start).get_next(datetime)] *)
  dt_leb : datetime -> datetime -> bool          (* [d1 <= d2] *)
}.

Section Recurrence.
Context `{TimeLib}.

(** [cron_run_required].  Every exception raised inside the [try]
    block makes the function return [False]; [fromisoformat] applied
    to something that is not a string raises a [TypeError]. *)
Definition cron_run_required
    (cron_expression last_completed_str : value) (now : datetime) : bool :=
  if negb (truthy cron_expression) then
    is_none last_completed_str
  else
    let start_time :=
      if truthy last_completed_str then
        match last_completed_str with
        | VStr s => (fun d => astimezone d (dt_tzinfo now)) <$> fromisoformat s
        | _ => None
        end
      else Some (year_one (dt_tzinfo now)) in
    match start_time ≫= croniter_get_next cron_expression with
    | Some next_run => dt_leb next_run now
    | None => false
    end.

End Recurrence.

(** References to task dictionaries, and the store that holds them. *)
Abbreviation loc := nat.
Abbreviation store := (list dict).

(** The dictionaries a list of references points to. *)
Definition deref (h : store) (ls : list loc) : list dict :=
  omap (fun l => h !! l) ls.

(** What happens outside the coordinator's memory.  Informational and
    debug log lines are left out. *)
Inductive event :=
| Published (tasks : list loc) (view : list dict) (* [async_set_updated_data] *)
| SheetUpdateCell (row col : nat) (v : string)   (* [task_ws.update_cell] called *)
| SheetAppendRow (row : list string)             (* [log_ws.append_row] called *)
| LogWarning (msg : string)
| LogError (msg : string)
| WriteHaState (entity_id : string) (state : value)
| BusFire (event_type : string) (event_data : dict)
| ListenersUpdated               (* [async_update_listeners] without a new list *)
| Raised (exc : string).                         (* an exception left the handler *)

Definition is_published (ev : event) : bool :=
  match ev with Published _ _ => true | _ => false end.


Section Reconciliation.
Context `{TimeLib}.

(** [{task.get("task"): task for task in self.data}]: of two tasks
    with the same name the later one stays. *)
Definition previous_data_by_name (prev : list dict) : gmap value dict :=
  foldl (fun m task => <[hash_key (get task "task") := task]> m) ∅ prev.

(** [previous_data_by_name.get(task_name, {})] *)
Definition previous_task_of (by_name : gmap value dict) (task : dict) : dict :=
  let task_name := get_d task "task" (VStr "Unnamed") in
  default ∅ (by_name !! hash_key task_name).

(** Lines 111-115 of the loop body: the state and the visibility of
    the fresh dictionary are taken from the previous task of that
    name. *)
Definition merge_task (by_name : gmap value dict) (task : dict) : dict :=
  let previous_task := previous_task_of by_name task in
  let task := <["state" := get_d previous_task "state" (VStr "not_completed")]> task in
  <["visible" := get_d previous_task "visible" (VBool true)]> task.

(** The condition of the [if] of lines 119-123, on the merged
    dictionary; [now] is the reading of the clock for this task. *)
Definition due_again (now : datetime) (task : dict) : bool :=
  let last_completed := get_d task "last_completed" (VStr "") in
  let cron := get task "cron_frequency" in
  py_eqb (get task "state") (VStr "completed")
  && negb (is_none cron)
  && cron_run_required cron last_completed now.

(** Lines 116-130.  [task["state"]] cannot raise here, the key has
    just been set. *)
Definition reactivate (now : datetime) (task : dict) : dict :=
  if due_again now task then
    <["state" := VStr "not_completed"]> (<["visible" := VBool true]> task)
  else task.

(** The [for] loop over [raw_tasks]; the clock is read once for each
    task, [clock i] is the reading for the task at position [i]. *)
Definition update_tasks (prev : list dict) (clock : nat -> datetime)
    (raw_tasks : list dict) : list dict :=
  let by_name := previous_data_by_name prev in
  imap (fun i task => reactivate (clock i) (merge_task by_name task)) raw_tasks.

End Reconciliation.

(** The coordinator object: the store of task dictionaries, the
    published list [self.data] ([None] before the first refresh) and the
    flag kept by the update coordinator of the host. *)
Record coordinator := {
  heap : store;
  data : option (list loc);
  last_update_success : bool
}.

(** The first task of the list whose name is [task_name], with its
    reference:
    [for task in tasks: if task.get("task") == task_name: ...; break]. *)
Fixpoint find_task (h : store) (tasks : list loc) (task_name : string)
    : option (loc * dict) :=
  match tasks with
  | [] => None
  | l :: rest =>
      match h !! l with
      | Some task =>
          if py_eqb (get task "task") (VStr task_name) then Some (l, task)
          else find_task h rest task_name
      | None => find_task h rest task_name
      end
  end.

(** [async_set_updated_data] of the host's update coordinator: the list
    becomes [self.data] and the listeners are told. *)
Definition async_set_updated_data (c : coordinator) (tasks : list loc)
    : coordinator * list event :=
  ({| heap := heap c; data := Some tasks; last_update_success := true |},
   [Published tasks (deref (heap c) tasks)]).

(** What the fetch of one tick meets. *)
Inductive fetch :=
| LoadSheetRaises (msg : string)       (* [client.load_sheet] raises *)
| GetAllRecordsRaises (msg : string)   (* [task_ws.get_all_records] raises *)
| Records (rows : list Sheets.raw_row).

Inductive update_failed :=
| UpdateFailed (cause : Sheets.error).

(** Lines 104-107: [load_sheet], then [get_tasks]. *)
Definition fetch_tasks {S : StrLib} (f : fetch)
    : result Sheets.error (list dict) :=
  match f with
  | LoadSheetRaises msg => Err (Sheets.StoreError msg)
  | GetAllRecordsRaises msg => Err (Sheets.StoreError msg)
  | Records rows => Sheets.get_tasks rows
  end.

(** The tasks of the published list, as [_async_update_data] reads
    them: [self.data] may still be [None]. *)
Definition previous_tasks (c : coordinator) : list dict :=
  match data c with
  | Some tasks => deref (heap c) tasks
  | None => []
  end.

Section Refresh.
Context {S : StrLib} `{TimeLib}.

(** [_async_update_data]: the new task dictionaries, or [UpdateFailed]. *)
Definition _async_update_data (c : coordinator) (f : fetch)
    (clock : nat -> datetime) : result update_failed (list dict) :=
  let prev := previous_tasks c in
  match fetch_tasks f with
  | Err e => Err (UpdateFailed e)
  | Ok raw_tasks => Ok (update_tasks prev clock raw_tasks)
  end.

(** [async_refresh] of the host's update coordinator.  The result of
    [_async_update_data] becomes [self.data] and the listeners are told.
    On [UpdateFailed], after the warning of [_async_update_data] itself,
    [self.data] stays; when the update before had succeeded the host
    logs the error and tells the listeners, and when it had failed too
    the host does neither.  The dictionaries of a new list are new
    objects, placed after the ones the store holds. *)
Definition async_refresh (c : coordinator) (f : fetch)
    (clock : nat -> datetime) : coordinator * list event :=
  match _async_update_data c f clock with
  | Ok updated_tasks =>
      let tasks := seq (length (heap c)) (length updated_tasks) in
      ({| heap := heap c ++ updated_tasks; data := Some tasks;
          last_update_success := true |},
       [Published tasks updated_tasks])
  | Err (UpdateFailed _) =>
      ({| heap := heap c; data := data c; last_update_success := false |},
       LogWarning "Failed to update tasks"
       :: (if last_update_success c
           then [LogError "Error fetching google_task_list_data data";
                 ListenersUpdated]
           else []))
  end.

End Refresh.

(** The worksheets as [update_task_status] and [log_action] meet them.
    A call that raises yields [Err] with the message. *)
Record worksheets := {
  ws_find : string -> result string (option nat);  (* [task_ws.find(name)]: the row of the cell *)
  ws_row_values : result string (list string);     (* [task_ws.row_values(1)] *)
  ws_update_cell : nat -> nat -> string -> result string unit;
  ws_append_row : list string -> result string unit;
  ws_now : string            (* [datetime.now().isoformat(timespec="seconds")] *)
}.

(** [l.index(x)] *)
Fixpoint index_of (x : string) (l : list string) : option nat :=
  match l with
  | [] => None
  | y :: l' => if String.eqb y x then Some 0 else S <$> index_of x l'
  end.

(** [update_task_status]: the events, and the exception if one leaves
    the function. *)
Definition update_task_status {S : StrLib} (ws : worksheets)
    (task_name last_completed_str : string) : list event * option string :=
  match ws_find ws task_name with
  | Err e => ([], Some e)
  | Ok None => ([LogWarning "Could not find task to update"], None)
  | Ok (Some row_index) =>
      match ws_row_values ws with
      | Err e => ([], Some e)
      | Ok header =>
          let header_lower := map (fun h => lower (strip h)) header in
          match index_of "last_completed" header_lower with
          | None => ([LogError "Could not find column header"],
                     Some "Could not find required column 'Last Completed' in sheet header.")
          | Some i =>
              let last_completed_col_index := i + 1 in
              let call := SheetUpdateCell row_index last_completed_col_index
                            last_completed_str in
              match ws_update_cell ws row_index last_completed_col_index
                      last_completed_str with
              | Err e => ([call; LogError "Google API error while updating task"], Some e)
              | Ok _ => ([call], None)
              end
          end
      end
  end.

(** [log_action] *)
Definition log_action (ws : worksheets) (task_name action user : string)
    : list event * option string :=
  let timestamp := ws_now ws in
  let row := [timestamp; task_name; user; action] in
  match ws_append_row ws row with
  | Err e => ([SheetAppendRow row; LogError "Google API error while logging"], Some e)
  | Ok _ => ([SheetAppendRow row], None)
  end.

(** [async_complete_task]; [now] is
    [datetime.now(CENTRAL).isoformat(timespec="seconds")].  The copy
    [list(self.data)] holds the same references as [self.data], so the
    three assignments change the dictionary that the published list
    holds too. *)
Definition async_complete_task {S : StrLib} (c : coordinator) (ws : worksheets)
    (task_name user_id now : string) : coordinator * list event :=
  match data c with
  | None => (c, [LogError "Error completing task"])
  | Some updated_tasks =>
      match find_task (heap c) updated_tasks task_name with
      | None => (c, [LogWarning "Task not found."])
      | Some (l, found_task) =>
          if negb (dict_truthy found_task) then (c, [LogWarning "Task not found."])
          else
            let found_task :=
              <["last_completed" := VStr now]>
              (<["visible" := VBool false]>
              (<["state" := VStr "completed"]> found_task)) in
            let c1 := {| heap := <[l := found_task]> (heap c); data := data c;
                         last_update_success := last_update_success c |} in
            let '(c2, ev0) := async_set_updated_data c1 updated_tasks in
            let '(ev1, exn1) := update_task_status ws task_name now in
            match exn1 with
            | Some _ => (c2, ev0 ++ ev1 ++ [LogError "Error completing task"])
            | None =>
                let '(ev2, exn2) := log_action ws task_name "completed" user_id in
                match exn2 with
                | Some _ => (c2, ev0 ++ ev1 ++ ev2 ++ [LogError "Error completing task"])
                | None => (c2, ev0 ++ ev1 ++ ev2)
                end
            end
      end
  end.

(** [async_incomplete_pending_task] *)
Definition async_incomplete_pending_task (c : coordinator)
    (task_name : string) : coordinator * list event :=
  match data c with
  | None => (c, [LogError "Failed to set task as incomplete"])
  | Some updated_tasks =>
      match find_task (heap c) updated_tasks task_name with
      | None => (c, [LogWarning "Task not found in coordinator data."])
      | Some (l, found_task) =>
          if negb (dict_truthy found_task)
          then (c, [LogWarning "Task not found in coordinator data."])
          else
            let found_task :=
              <["visible" := VBool true]>
              (<["state" := VStr "not_completed"]> found_task) in
            let c1 := {| heap := <[l := found_task]> (heap c); data := data c;
                         last_update_success := last_update_success c |} in
            async_set_updated_data c1 updated_tasks
      end
  end.

(** *** The five-minute schedule *)

Module Schedule.

Local Open Scope Z_scope.

(** A [datetime] in UTC.  The date is kept as its proleptic ordinal
    ([toordinal()]), which is what [datetime] arithmetic works on. *)
Record utc_datetime := {
  ordinal : Z;
  hour : Z;
  minute : Z;
  second : Z;
  microsecond : Z
}.

(** [date.max.toordinal()] *)
Definition MAXORDINAL : Z := 3652059.

Definition valid (d : utc_datetime) : Prop :=
  1 <= ordinal d <= MAXORDINAL /\ 0 <= hour d < 24 /\ 0 <= minute d < 60 /\
  0 <= second d < 60 /\ 0 <= microsecond d < 1000000.

(** Microseconds since the start of day 0: the position of the
    datetime on the UTC time line. *)
Definition instant (d : utc_datetime) : Z :=
  (((ordinal d * 24 + hour d) * 60 + minute d) * 60 + second d) * 1000000
  + microsecond d.

(** A normalised [timedelta]. *)
Record timedelta := {
  td_days : Z;
  td_seconds : Z;
  td_microseconds : Z
}.

(** [timedelta(days, hours=, minutes=, seconds=, microseconds=)] *)
Definition mk_timedelta (days hours minutes seconds microseconds : Z)
    : timedelta :=
  let s := seconds + minutes * 60 + hours * 3600 + microseconds / 1000000 in
  {| td_days := days + s / 86400;
     td_seconds := s mod 86400;
     td_microseconds := microseconds mod 1000000 |}.

Definition td_add (a b : timedelta) : timedelta :=
  mk_timedelta (td_days a + td_days b) 0 0 (td_seconds a + td_seconds b)
    (td_microseconds a + td_microseconds b).

(** [datetime.__add__]: [None] is the [OverflowError]. *)
Definition dt_add (d : utc_datetime) (other : timedelta) : option utc_datetime :=
  let delta :=
    td_add (mk_timedelta (ordinal d) (hour d) (minute d) (second d)
              (microsecond d)) other in
  let hour := td_seconds delta / 3600 in
  let rem := td_seconds delta mod 3600 in
  let minute := rem / 60 in
  let second := rem mod 60 in
  if (0 <? td_days delta) && (td_days delta <=? MAXORDINAL) then
    Some {| ordinal := td_days delta; hour := hour; minute := minute;
            second := second; microsecond := td_microseconds delta |}
  else None.

(** [d.replace(second=s, microsecond=us)] *)
Definition replace_second_microsecond (d : utc_datetime) (s us : Z)
    : utc_datetime :=
  {| ordinal := ordinal d; hour := hour d; minute := minute d;
     second := s; microsecond := us |}.

(** [d.replace(minute=m)] *)
Definition replace_minute (d : utc_datetime) (m : Z) : utc_datetime :=
  {| ordinal := ordinal d; hour := hour d; minute := m;
     second := second d; microsecond := microsecond d |}.

(** The time that [_schedule_five_minutely_refresh] hands to
    [async_track_point_in_utc_time], for the reading [now] of the UTC
    clock. *)
Definition _schedule_five_minutely_refresh (now : utc_datetime)
    : option utc_datetime :=
  next_run ← dt_add now (mk_timedelta 0 0 5 0 0);
  let next_run := replace_second_microsecond next_run 0 0 in
  let minute := minute next_run - (minute next_run mod 5) in
  Some (replace_minute next_run minute).

End Schedule.

(** ** google_task_list/button.py *)

Module Button.

Record entity := {
  task_id : string;
  category : string;
  entity_id : string;
  unique_id : string;
  pending_state : bool;              (* [_pending_state] *)
  extra_state_attributes : dict      (* [_attr_extra_state_attributes] *)
}.

(** [s.replace(a, b)] for one-character [a] and [b]. *)
Fixpoint replace_char (a b : ascii) (s : string) : string :=
  match s with
  | EmptyString => EmptyString
  | String c s' =>
      String (if Ascii.eqb c a then b else c) (replace_char a b s')
  end.

(** [s.lower().replace(" ", "_").replace("-", "_")] *)
Definition slug {S : StrLib} (s : string) : string :=
  replace_char "-" "_" (replace_char " " "_" (lower s)).

(** [_get_task_data]; [None] when [coordinator.data] is [None] and the
    loop raises. *)
Definition _get_task_data (c : coordinator) (task_id : string) : option dict :=
  tasks ← data c;
  Some match find_task (heap c) tasks task_id with
       | Some (_, task) => task
       | None => ∅
       end.

(** The [state] property. *)
Definition state (e : entity) (c : coordinator) : option value :=
  if pending_state e then Some (VStr "pending")
  else
    task_data ← _get_task_data c (task_id e);
    Some (get_d task_data "state" (VStr "not_completed")).

Definition set_pending_state (e : entity) (b : bool) : entity :=
  {| task_id := task_id e; category := category e; entity_id := entity_id e;
     unique_id := unique_id e; pending_state := b;
     extra_state_attributes := extra_state_attributes e |}.

(** [_update_internal_state] *)
Definition _update_internal_state (e : entity) (c : coordinator)
    : option entity :=
  task_data ← _get_task_data c (task_id e);
  let attributes := <["category" := VStr (category e)]> task_data in
  Some {| task_id := task_id e; category := category e;
          entity_id := entity_id e; unique_id := unique_id e;
          pending_state := pending_state e;
          extra_state_attributes := attributes |}.

(** [__init__], for the task named [task_id] of the coordinator's
    data. *)
Definition new_entity {S : StrLib} (c : coordinator) (entry_id task_id category
    entity_prefix : string) : option entity :=
  let base_slug := slug task_id in
  let prefix_slug := slug entity_prefix in
  let full_slug :=
    if negb (String.eqb prefix_slug "")
    then String.append prefix_slug (String.append "_" base_slug)
    else base_slug in
  _update_internal_state
    {| task_id := task_id; category := category;
       entity_id := String.append "button." full_slug;
       unique_id := String.append entry_id (String.append "_" full_slug);
       pending_state := false; extra_state_attributes := ∅ |} c.

(** [_handle_coordinator_update], run for every entity when the
    coordinator publishes.  [None] when it raises. *)
Definition _handle_coordinator_update (e : entity) (c : coordinator)
    : option (entity * list event) :=
  let e := set_pending_state e false in
  e ← _update_internal_state e c;
  s ← state e c;
  Some (e, [WriteHaState (entity_id e) s]).

Definition event_data {S : StrLib} (e : entity) : dict :=
  <["unique_id" := VStr (unique_id e)]>
  (<["category" := VStr (category e)]>
  (<["assigned_to" := get (extra_state_attributes e) "assigned_to"]>
  (<["action_id" :=
       VStr (String.append "CONFIRM_" (upper (replace_char " " "_" (task_id e))))]>
  (<["task_name" := VStr (task_id e)]>
  (<["entity_id" := VStr (entity_id e)]> ∅))))).

(** [async_press] *)
Definition async_press {S : StrLib} (e : entity) (c : coordinator)
    : entity * coordinator * list event :=
  if pending_state e then
    (e, c, [LogWarning "Task is already pending. Press ignored."])
  else
    match state e c, data c with
    | Some st, Some tasks =>
        if py_eqb st (VStr "completed") then
          (e, c, [LogWarning "Task is already completed. Press ignored."])
        else
          let e := set_pending_state e true in
          let c :=
            match find_task (heap c) tasks (task_id e) with
            | Some (l, task) =>
                let task :=
                  <["visible" := VBool true]> (<["state" := VStr "pending"]> task) in
                {| heap := <[l := task]> (heap c); data := data c;
                   last_update_success := last_update_success c |}
            | None => c
            end in
          (e, c, [WriteHaState (entity_id e) (VStr "pending");
                  BusFire "google_task_list_button_pressed" (event_data e)])
    | _, _ => (e, c, [Raised "TypeError"])
    end.

End Button.

(** ** The integration as a whole: one coordinator and its buttons *)

Module System.
Import Button.

Record system := {
  coord : coordinator;
  entities : list entity;
  trace : list event
}.

(** The listeners of the coordinator: every entity runs
    [_handle_coordinator_update].  The state writes of the listeners
    are not recorded. *)
Definition notify (c : coordinator) (es : list entity) : list entity :=
  map (fun e => match _handle_coordinator_update e c with
                | Some (e', _) => e'
                | None => e
                end) es.

Inductive command :=
| Press (i : nat)                                  (* the [i]-th button *)
| Complete (ws : worksheets) (task_name user_id now : string)
| Incomplete (task_name : string).

Definition step {S : StrLib} (s : system) (cmd : command) : system :=
  match cmd with
  | Press i =>
      match entities s !! i with
      | Some e =>
          let '(e', c', evs) := async_press e (coord s) in
          {| coord := c'; entities := <[i := e']> (entities s);
             trace := trace s ++ evs |}
      | None => s
      end
  | Complete ws task_name user_id now =>
      let '(c', evs) := async_complete_task (coord s) ws task_name user_id now in
      {| coord := c';
         entities := if existsb is_published evs then notify c' (entities s)
                     else entities s;
         trace := trace s ++ evs |}
  | Incomplete task_name =>
      let '(c', evs) := async_incomplete_pending_task (coord s) task_name in
      {| coord := c';
         entities := if existsb is_published evs then notify c' (entities s)
                     else entities s;
         trace := trace s ++ evs |}
  end.

Definition run {S : StrLib} (s : system) (cmds : list command) : system :=
  foldl step s cmds.

End System.

(** A small instance of the time interface, for the examples: datetimes
    are day numbers, a timestamp is read as the number of its
    characters, and every recurrence expression that is a string means
    every day. *)
Definition day_clock : TimeLib :=
  {| datetime := Z;
     tzinfo := unit;
     dt_tzinfo := fun _ => tt;
     fromisoformat := fun s => Some (Z.of_nat (String.length s));
     astimezone := fun d _ => d;
     year_one := fun _ => 0%Z;
     croniter_get_next := fun expr d =>
       match expr with VStr _ => Some (d + 1)%Z | _ => None end;
     dt_leb := Z.leb |}.

(** ** The refresh loop *)

(** The part of the coordinator that drives the periodic refresh: the
    flag [stop_refresh] and the time for which a call of
    [_handle_scheduled_refresh] is registered with the host, if any. *)
Record refresh_loop := {
  loop_coord : coordinator;
  stop_refresh : bool;
  next_refresh : option Schedule.utc_datetime
}.

Section Loop.
Context {S : StrLib} `{TimeLib}.

(** [_handle_scheduled_refresh], called by the host when the registered
    time has come.  [utc_now] is the reading of the UTC clock when the
    next refresh is scheduled, after the refresh has run. *)
Definition _handle_scheduled_refresh (s : refresh_loop) (f : fetch)
    (clock : nat -> datetime) (utc_now : Schedule.utc_datetime)
    : refresh_loop * list event :=
  if stop_refresh s then
    ({| loop_coord := loop_coord s; stop_refresh := true; next_refresh := None |}, [])
  else
    let '(c, evs) := async_refresh (loop_coord s) f clock in
    match Schedule._schedule_five_minutely_refresh utc_now with
    | Some next_run =>
        ({| loop_coord := c; stop_refresh := false; next_refresh := Some next_run |},
         evs)
    | None =>
        ({| loop_coord := c; stop_refresh := false; next_refresh := None |},
         evs ++ [Raised "OverflowError"])
    end.

(** The calls of one run of the host: each with what the fetch meets and
    the readings of the two clocks. *)
Definition run_loop (s : refresh_loop)
    (ticks : list (fetch * (nat -> datetime) * Schedule.utc_datetime))
    : refresh_loop * list event :=
  foldl (fun acc tick =>
           let '(s', evs') := _handle_scheduled_refresh acc.1 tick.1.1 tick.1.2 tick.2 in
           (s', acc.2 ++ evs'))
        (s, []) ticks.

End Loop.

(** What [async_unload_entry] of [__init__.py] does to the loop: when
    the platform has been unloaded the flag is set; the registered call
    stays registered. *)
Definition async_unload_entry (unload_ok : bool) (s : refresh_loop) : refresh_loop :=
  if unload_ok then
    {| loop_coord := loop_coord s; stop_refresh := true;
       next_refresh := next_refresh s |}
  else s.

(** ** Notions used in the statements *)

(** A cell that [x or None] turns into [None] after stripping: the
    empty string, blanks only, or the number 0. *)
Definition blank_cell {S : StrLib} (v : value) : Prop :=
  truthy (Sheets.strip_value v) = false.

(** The row has no recurrence cell, or only blank ones. *)
Definition cron_cell_blank {S : StrLib} (row : Sheets.raw_row) : Prop :=
  forall k v, (k, v) ∈ row -> lower k = "cron_frequency" -> blank_cell v.

(** The name under which a fresh row is looked up among the previous
    tasks, and the name under which a previous task is filed. *)
Definition fresh_name (task : dict) : value := get_d task "task" (VStr "Unnamed").
Definition filed_name (task : dict) : value := get task "task".

(** [p] is the last task of [prev] whose name equals [name]. *)
Definition last_named (prev : list dict) (name : value) (p : dict) : Prop :=
  exists j, prev !! j = Some p /\ py_eqb (filed_name p) name = true /\
    forall j' p', j < j' -> prev !! j' = Some p' -> py_eqb (filed_name p') name = false.

(** No task of [prev] has the name [name]. *)
Definition not_named (prev : list dict) (name : value) : Prop :=
  forall p, p ∈ prev -> py_eqb (filed_name p) name = false.

(** The fetches on which the fetch step raises: the store cannot be
    opened, reading the rows raises, or the sheet has no task rows.  A
    sheet whose header lacks required columns is not among them. *)
Definition fetch_raises (f : fetch) : Prop :=
  match f with
  | LoadSheetRaises _ | GetAllRecordsRaises _ => True
  | Records rows => rows = []
  end.

(** Every dictionary that the published list of [c] refers to is in
    [c'] what it is in [c]. *)
Definition snapshot_untouched (c c' : coordinator) : Prop :=
  forall tasks l task, data c = Some tasks -> l ∈ tasks ->
    heap c !! l = Some task -> heap c' !! l = Some task.


(** The dictionary of a task after its completion at [now]. *)
Definition completed_task (task : dict) (now : string) : dict :=
  <["last_completed" := VStr now]>
  (<["visible" := VBool false]> (<["state" := VStr "completed"]> task)).

(** The dictionary of a task after an accepted press. *)
Definition pending_task (task : dict) : dict :=
  <["visible" := VBool true]> (<["state" := VStr "pending"]> task).

(** The datetime lies on a five-minute boundary of the wall clock. *)
Definition on_boundary (d : Schedule.utc_datetime) : Prop :=
  (Schedule.minute d mod 5 = 0)%Z /\ Schedule.second d = 0%Z
  /\ Schedule.microsecond d = 0%Z.

(** [now] plus five minutes is still a [datetime]: [now] is more than five
    minutes before the end of the last day. *)
Definition before_last_five_minutes (now : Schedule.utc_datetime) : Prop :=
  (Schedule.instant now + 300000000
   < (Schedule.MAXORDINAL + 1) * 86400000000)%Z.

(** No column of the row has the header [key], whatever the case of its
    letters. *)
Definition column_absent {S : StrLib} (row : Sheets.raw_row) (key : string)
    : Prop :=
  forall k v, (k, v) ∈ row -> lower k <> key.

(** The lowered headers of the columns of a row. *)
Definition lowered_headers {S : StrLib} (row : Sheets.raw_row) : list string :=
  map (fun kv => lower kv.1) row.

(** No task of the list has the name [task_name]. *)
Definition unknown_task (h : store) (tasks : list loc) (task_name : string) : Prop :=
  forall l task, l ∈ tasks -> h !! l = Some task ->
    get task "task" <> VStr task_name.

(** The dictionary of a task after it has been reopened. *)
Definition reopened_task (task : dict) : dict :=
  <["visible" := VBool true]> (<["state" := VStr "not_completed"]> task).

Definition is_append_row (ev : event) : bool :=
  match ev with SheetAppendRow _ => true | _ => false end.

Definition is_update_cell (ev : event) : bool :=
  match ev with SheetUpdateCell _ _ _ => true | _ => false end.

(** Characters other than the space and the hyphen, other than the
    ASCII capitals, and other than the ASCII small letters. *)
Definition no_space (c : ascii) : Prop := c <> " "%char.

Definition no_space_hyphen (c : ascii) : Prop :=
  c <> " "%char /\ c <> "-"%char.

Definition no_capital (c : ascii) : Prop :=
  (Ascii.leb "A" c && Ascii.leb c "Z")%bool = false.

Definition no_small (c : ascii) : Prop :=
  (Ascii.leb "a" c && Ascii.leb c "z")%bool = false.

Fixpoint string_forall (P : ascii -> Prop) (s : string) : Prop :=
  match s with
  | EmptyString => True
  | String c s' => P c /\ string_forall P s'
  end.

(** What the statements about identifiers need to know of [str.lower]
    and [str.upper]: a lowered string has no ASCII capital, a raised
    string has no ASCII small letter, and raising brings no space into a
    string that has none. *)
Definition case_laws {S : StrLib} : Prop :=
  (forall s, string_forall no_capital (lower s))
  /\ (forall s, string_forall no_small (upper s))
  /\ (forall s, string_forall no_space s -> string_forall no_space (upper s)).

(** A task dictionary as the buttons expect it: with a name, a state
    and a visibility. *)
Definition task_ok (task : dict) : Prop :=
  is_Some (task !! "task") /\ is_Some (task !! "state")
  /\ is_Some (task !! "visible").

(** Every reference of the published list points to such a dictionary. *)
Definition published_ok (c : coordinator) : Prop :=
  forall tasks l, data c = Some tasks -> l ∈ tasks ->
    exists task, heap c !! l = Some task /\ task_ok task.

(** The fresh rows all have a name, and no two of them the same. *)
Definition distinct_names (raw_tasks : list dict) : Prop :=
  Forall (fun task => is_Some (task !! "task")) raw_tasks
  /\ NoDup (map (fun task => hash_key (fresh_name task)) raw_tasks).

(** What the statements about keys need to know of [str.lower]:
    lowering a lowered string changes nothing, and the names of the five
    known keys are in lower case. *)
Definition lower_keeps_keys {S : StrLib} : Prop :=
  (forall s, lower (lower s) = lower s)
  /\ Forall (fun k => lower k = k)
       ["task"; "assigned_to"; "cron_frequency"; "last_completed"; "visible"].

(** ** Data of the examples *)

Module Examples.
Import Button System.

Definition task_dict (name state : string) (visible : bool) : dict :=
  {[ "task" := VStr name; "assigned_to" := VStr "Harvey";
     "cron_frequency" := VStr "0 8 * * *"; "last_completed" := VStr "";
     "visible" := VBool visible; "state" := VStr state ]}.

(** A coordinator that has published the tasks A and B, neither of
    them completed. *)
Definition two_tasks : coordinator :=
  {| heap := [task_dict "A" "not_completed" true; task_dict "B" "not_completed" true];
     data := Some [0; 1];
     last_update_success := true |}.

(** Worksheets on which every call returns. *)
Definition sheet_ok : worksheets :=
  {| ws_find := fun _ => Ok (Some 2);
     ws_row_values := Ok ["Task"; "Assigned_To"; "Cron_Frequency"; " Last_Completed "];
     ws_update_cell := fun _ _ _ => Ok tt;
     ws_append_row := fun _ => Ok tt;
     ws_now := "2024-01-01T08:00:00" |}.

(** Worksheets on which [update_cell] raises. *)
Definition sheet_down : worksheets :=
  {| ws_find := fun _ => Ok (Some 2);
     ws_row_values := Ok ["Task"; "Assigned_To"; "Cron_Frequency"; " Last_Completed "];
     ws_update_cell := fun _ _ _ => Err "APIError";
     ws_append_row := fun _ => Err "APIError";
     ws_now := "2024-01-01T08:00:00" |}.

Definition button_A : entity :=
  {| task_id := "A"; category := "PT Tasks"; entity_id := "button.h_chore_a";
     unique_id := "entry_h_chore_a"; pending_state := false;
     extra_state_attributes :=
       <["category" := VStr "PT Tasks"]> (task_dict "A" "not_completed" true) |}.

Definition two_tasks_system : system :=
  {| coord := two_tasks; entities := [button_A]; trace := [] |}.

End Examples.

(** * Properties *)

(** ** Python values *)

Lemma py_eqb_str (v : value) (s : string) :
  py_eqb v (VStr s) = true <-> v = VStr s.
Proof.
  unfold py_eqb. rewrite bool_decide_eq_true.
  destruct v as [|[]| |]; simpl; split; congruence.
Qed.

Lemma py_eqb_hash_key (v w : value) :
  py_eqb v w = true <-> hash_key v = hash_key w.
Proof. unfold py_eqb. apply bool_decide_eq_true. Qed.

Lemma py_eqb_false_hash_key (v w : value) :
  py_eqb v w = false <-> hash_key v <> hash_key w.
Proof. unfold py_eqb. apply bool_decide_eq_false. Qed.

Lemma dict_truthy_lookup (d : dict) (k : string) (v : value) :
  d !! k = Some v -> dict_truthy d = true.
Proof.
  intros Hk. unfold dict_truthy. rewrite negb_true_iff, bool_decide_eq_false.
  intros ->. by rewrite lookup_empty in Hk.
Qed.

(** ** The recurrence evaluator *)

Section RecurrenceFacts.
Context `{TimeLib}.

(** Without a recurrence expression the answer only depends on whether
    the last completion is the object [None]. *)
Lemma cron_run_required_one_time (cron last : value) (now : datetime) :
  truthy cron = false -> cron_run_required cron last now = is_none last.
Proof. intros Hc. unfold cron_run_required. by rewrite Hc. Qed.

(** C1, at the input where the code departs from it: a one-time task
    whose last completion is the empty string (what an empty cell of
    the sheet gives) is reported as not due, although it has never been
    completed. *)
Theorem cron_run_required_empty_last_not_due (now : datetime) :
  cron_run_required VNone (VStr "") now = false
  /\ cron_run_required (VStr "") (VStr "") now = false
  /\ cron_run_required VNone VNone now = true.
Proof. repeat split. Qed.

End RecurrenceFacts.

(** ** Reading the task sheet *)

Module SheetsFacts.
Import Sheets.

Lemma foldl_lower_lookup {S : StrLib}
    (row : raw_row) (acc : dict) (k : string) (v : value) :
  foldl (fun d kv => <[lower kv.1 := strip_value kv.2]> d) acc row !! k = Some v ->
  acc !! k = Some v \/
  exists k0 v0, (k0, v0) ∈ row /\ lower k0 = k /\ v = strip_value v0.
Proof.
  revert acc. induction row as [|[k0 v0] row IH]; intros acc; simpl.
  - by left.
  - intros Hl. destruct (IH _ Hl) as [Hacc|(k1 & v1 & Hin & Hk & Hv)].
    + destruct (decide (lower k0 = k)) as [Heq|Hne].
      * rewrite Heq, lookup_insert_eq in Hacc. right. exists k0, v0.
        split; [apply list_elem_of_here|]. split; congruence.
      * rewrite lookup_insert_ne in Hacc by done. by left.
    + right. exists k1, v1. split; [by apply list_elem_of_further|done].
Qed.

Lemma task_lower_lookup {S : StrLib} (row : raw_row) (k : string) (v : value) :
  task_lower row !! k = Some v ->
  exists k0 v0, (k0, v0) ∈ row /\ lower k0 = k /\ v = strip_value v0.
Proof.
  intros Hl. destruct (foldl_lower_lookup _ _ _ _ Hl) as [Hacc|?]; [|done].
  by rewrite lookup_empty in Hacc.
Qed.

(** The five normalised keys are always set by [clean_task]. *)
Lemma clean_task_known {S : StrLib} (row : raw_row) :
  let tl := task_lower row in
  clean_task row !! "task" = Some (get_d tl "task" (VStr ""))
  /\ clean_task row !! "assigned_to" = Some (get_d tl "assigned_to" (VStr "unknown"))
  /\ clean_task row !! "cron_frequency" = Some (or_none (tl !! "cron_frequency"))
  /\ clean_task row !! "last_completed" = Some (get_d tl "last_completed" (VStr ""))
  /\ clean_task row !! "visible" = Some (get_d tl "visible" (VBool true)).
Proof.
  unfold clean_task. cbv zeta.
  repeat split; apply lookup_union_Some_l; by simplify_map_eq.
Qed.

(** Every other key is the lowered, stripped cell. *)
Lemma clean_task_other {S : StrLib} (row : raw_row) (k : string) :
  k <> "task" -> k <> "assigned_to" -> k <> "cron_frequency" ->
  k <> "last_completed" -> k <> "visible" ->
  clean_task row !! k = task_lower row !! k.
Proof.
  intros. unfold clean_task. cbv zeta.
  apply lookup_union_r. by simplify_map_eq.
Qed.

Lemma missing_fields_clean_task {S : StrLib} (row : raw_row) :
  missing_fields (clean_task row) = [].
Proof.
  destruct (clean_task_known row) as (Ht & _ & Hc & Hl & _).
  unfold missing_fields, required_fields.
  rewrite !filter_cons, filter_nil, Ht, Hc, Hl.
  repeat case_decide; congruence.
Qed.

(** [get_tasks] only fails on an empty sheet: the check of the
    required columns comes after the defaults have been filled in and
    can never find one missing. *)
Lemma get_tasks_eq {S : StrLib} (rows : list raw_row) :
  get_tasks rows =
  match rows with
  | [] => Err NoTasksFound
  | _ :: _ => Ok (map clean_task rows)
  end.
Proof.
  destruct rows as [|row rows]; [done|].
  unfold get_tasks. simpl. by rewrite missing_fields_clean_task.
Qed.

Lemma get_tasks_never_missing_columns {S : StrLib}
    (rows : list raw_row) (cols : list string) :
  get_tasks rows <> Err (MissingColumns cols).
Proof. rewrite get_tasks_eq. by destruct rows. Qed.

Lemma or_none_not_empty (o : option value) : or_none o <> VStr "".
Proof.
  destruct o as [v|]; simpl; [|done].
  destruct (truthy v) eqn:Hv; [|done]. by intros ->.
Qed.

Lemma cron_cell_blank_or_none {S : StrLib} (row : raw_row) :
  cron_cell_blank row -> or_none (task_lower row !! "cron_frequency") = VNone.
Proof.
  intros Hb. destruct (task_lower row !! "cron_frequency") as [v|] eqn:Hl; [|done].
  destruct (task_lower_lookup _ _ _ Hl) as (k0 & v0 & Hin & Hk & ->).
  simpl. by rewrite (Hb _ _ Hin Hk).
Qed.

(** C5, at an input where the code departs from it: a sheet whose only
    column is [name] has none of the required columns, and [get_tasks]
    returns a task list for it instead of failing. *)
Theorem get_tasks_accepts_missing_columns :
  get_tasks (S := ascii_text) [[("name", VStr "x")]]
  = Ok [ {[ "task" := VStr ""; "assigned_to" := VStr "unknown";
            "cron_frequency" := VNone; "last_completed" := VStr "";
            "visible" := VBool true; "name" := VStr "x" ]} ].
Proof. vm_compute. reflexivity. Qed.

End SheetsFacts.

(** ** Reconciliation *)

Section ReconciliationFacts.
Context `{TimeLib}.

Lemma previous_data_by_name_snoc (prev : list dict) (p : dict) :
  previous_data_by_name (prev ++ [p])
  = <[hash_key (filed_name p) := p]> (previous_data_by_name prev).
Proof. unfold previous_data_by_name. by rewrite foldl_snoc. Qed.

Lemma previous_data_by_name_None (prev : list dict) (name : value) :
  not_named prev name -> previous_data_by_name prev !! hash_key name = None.
Proof.
  induction prev as [|p prev IH] using rev_ind; intros Hn; [done|].
  rewrite previous_data_by_name_snoc, lookup_insert_ne.
  - apply IH. intros q Hq. apply Hn. apply elem_of_app. by left.
  - apply py_eqb_false_hash_key, Hn. apply elem_of_app. right. apply list_elem_of_here.
Qed.

Lemma previous_data_by_name_last (prev : list dict) (name : value) (p : dict) :
  last_named prev name p -> previous_data_by_name prev !! hash_key name = Some p.
Proof.
  induction prev as [|q prev IH] using rev_ind; intros (j & Hj & Hp & Hlast).
  - by rewrite lookup_nil in Hj.
  - rewrite previous_data_by_name_snoc.
    destruct (decide (j = length prev)) as [->|Hne].
    + rewrite list_lookup_middle in Hj by done. injection Hj as ->.
      apply py_eqb_hash_key in Hp. rewrite Hp. apply lookup_insert_eq.
    + assert (j < length prev) as Hlt.
      { apply lookup_lt_Some in Hj. rewrite length_app in Hj. simpl in Hj. lia. }
      rewrite lookup_app_l in Hj by done.
      rewrite lookup_insert_ne.
      * apply IH. exists j. split; [done|]. split; [done|].
        intros j' p' Hjj' Hp'. apply (Hlast j' p' Hjj').
        rewrite lookup_app_l; [done|]. by apply lookup_lt_Some in Hp'.
      * apply py_eqb_false_hash_key, (Hlast (length prev) q Hlt).
        by rewrite list_lookup_middle.
Qed.

Lemma merge_task_state (by_name : gmap value dict) (task : dict) :
  merge_task by_name task !! "state"
  = Some (get_d (previous_task_of by_name task) "state" (VStr "not_completed")).
Proof. unfold merge_task. by simplify_map_eq. Qed.

Lemma merge_task_visible (by_name : gmap value dict) (task : dict) :
  merge_task by_name task !! "visible"
  = Some (get_d (previous_task_of by_name task) "visible" (VBool true)).
Proof. unfold merge_task. by simplify_map_eq. Qed.

Lemma merge_task_content (by_name : gmap value dict) (task : dict) (k : string) :
  k <> "state" -> k <> "visible" -> merge_task by_name task !! k = task !! k.
Proof. intros. unfold merge_task. by simplify_map_eq. Qed.

Lemma reactivate_content (now : datetime) (task : dict) (k : string) :
  k <> "state" -> k <> "visible" -> reactivate now task !! k = task !! k.
Proof.
  intros. unfold reactivate. destruct (due_again now task); [|done].
  by simplify_map_eq.
Qed.

(** The condition of the recurrence check, in terms of the fresh row
    and the carried-over state. *)
Lemma due_again_merge_task (by_name : gmap value dict) (now : datetime) (task : dict) :
  due_again now (merge_task by_name task)
  = py_eqb (get_d (previous_task_of by_name task) "state" (VStr "not_completed"))
      (VStr "completed")
    && negb (is_none (get task "cron_frequency"))
    && cron_run_required (get task "cron_frequency")
         (get_d task "last_completed" (VStr "")) now.
Proof.
  unfold due_again, get, get_d.
  rewrite merge_task_state.
  by rewrite !merge_task_content.
Qed.

Lemma update_tasks_lookup (prev : list dict) (clock : nat -> datetime)
    (raw_tasks : list dict) (i : nat) (task : dict) :
  raw_tasks !! i = Some task ->
  update_tasks prev clock raw_tasks !! i
  = Some (reactivate (clock i) (merge_task (previous_data_by_name prev) task)).
Proof. intros Hi. unfold update_tasks. by rewrite list_lookup_imap, Hi. Qed.

Lemma update_tasks_length (prev : list dict) (clock : nat -> datetime)
    (raw_tasks : list dict) :
  length (update_tasks prev clock raw_tasks) = length raw_tasks.
Proof. unfold update_tasks. apply length_imap. Qed.

Lemma previous_task_of_last (prev : list dict) (task p : dict) :
  last_named prev (fresh_name task) p ->
  previous_task_of (previous_data_by_name prev) task = p.
Proof.
  intros Hl. pose proof (previous_data_by_name_last _ _ _ Hl) as Hp.
  unfold previous_task_of, fresh_name in *. cbv zeta. by rewrite Hp.
Qed.

Lemma previous_task_of_none (prev : list dict) (task : dict) :
  not_named prev (fresh_name task) ->
  previous_task_of (previous_data_by_name prev) task = ∅.
Proof.
  intros Hn. pose proof (previous_data_by_name_None _ _ Hn) as Hp.
  unfold previous_task_of, fresh_name in *. cbv zeta. by rewrite Hp.
Qed.

(** C2: the merge of a reconciliation yields one dictionary for each
    fresh row, in the order of the rows.  The dictionary at position
    [i] is the merged dictionary of row [i] after the recurrence check
    of that row; every key other than [state] and [visible] has the
    value of the fresh row; the merged dictionary has the state and
    the visibility of the last previous task of the same name, and
    [not_completed] and [True] when no previous task has that name. *)
Theorem update_tasks_merge (prev : list dict) (clock : nat -> datetime)
    (raw_tasks : list dict) :
  length (update_tasks prev clock raw_tasks) = length raw_tasks /\
  forall i task, raw_tasks !! i = Some task ->
    let merged := merge_task (previous_data_by_name prev) task in
    update_tasks prev clock raw_tasks !! i = Some (reactivate (clock i) merged)
    /\ (forall k, k <> "state" -> k <> "visible" ->
          merged !! k = task !! k /\ reactivate (clock i) merged !! k = task !! k)
    /\ (forall p, last_named prev (fresh_name task) p ->
          merged !! "state" = Some (get_d p "state" (VStr "not_completed"))
          /\ merged !! "visible" = Some (get_d p "visible" (VBool true)))
    /\ (not_named prev (fresh_name task) ->
          merged !! "state" = Some (VStr "not_completed")
          /\ merged !! "visible" = Some (VBool true)).
Proof.
  split; [apply update_tasks_length|].
  intros i task Hi merged. subst merged.
  split; [by apply update_tasks_lookup|].
  split.
  { intros k Hs Hv. rewrite reactivate_content by done.
    split; by apply merge_task_content. }
  split.
  - intros p Hp. rewrite merge_task_state, merge_task_visible.
    by rewrite (previous_task_of_last _ _ _ Hp).
  - intros Hn. rewrite merge_task_state, merge_task_visible.
    by rewrite (previous_task_of_none _ _ Hn).
Qed.

(** C3: the dictionary that reconciliation produces for a fresh row
    has state [not_completed] and is visible when the carried-over
    state is [completed], the recurrence expression of the row is not
    [None] and [cron_run_required] answers [True] for the reading of
    the clock; in every other case it has the carried-over state and
    visibility. *)
Theorem reactivation_exactly_when_due (prev : list dict)
    (clock : nat -> datetime) (raw_tasks : list dict) (i : nat) (task : dict) :
  raw_tasks !! i = Some task ->
  let previous_task := previous_task_of (previous_data_by_name prev) task in
  let carried_state := get_d previous_task "state" (VStr "not_completed") in
  let carried_visible := get_d previous_task "visible" (VBool true) in
  let cron := get task "cron_frequency" in
  let last_completed := get_d task "last_completed" (VStr "") in
  let due := carried_state = VStr "completed" /\ cron <> VNone /\
             cron_run_required cron last_completed (clock i) = true in
  exists r, update_tasks prev clock raw_tasks !! i = Some r
    /\ (due -> r !! "state" = Some (VStr "not_completed")
               /\ r !! "visible" = Some (VBool true))
    /\ (~ due -> r !! "state" = Some carried_state
                 /\ r !! "visible" = Some carried_visible).
Proof.
  intros Hi previous_task carried_state carried_visible cron last_completed due.
  eexists. split; [by apply update_tasks_lookup|].
  assert (due_again (clock i) (merge_task (previous_data_by_name prev) task) = true
          <-> due) as Hdue.
  { rewrite due_again_merge_task, !andb_true_iff, py_eqb_str, negb_true_iff.
    subst due cron. destruct (get task "cron_frequency"); simpl; intuition congruence. }
  unfold reactivate.
  destruct (due_again _ _) eqn:Hd.
  - split; [intros _; by simplify_map_eq|].
    intros Hn. destruct Hn. by apply Hdue.
  - split; [intros Hy; apply Hdue in Hy; congruence|].
    intros _. by rewrite merge_task_state, merge_task_visible.
Qed.

(** C10: every dictionary that [get_tasks] returns has the keys
    [task], [assigned_to], [cron_frequency], [last_completed] and
    [visible], and its [cron_frequency] is never the empty string; for
    a row whose recurrence cell is missing or blank it is [None], and
    reconciliation then leaves the task with the state and visibility
    carried over from the previous list, whatever the clock says. *)
Theorem get_tasks_normalised {S : StrLib}
    (rows : list Sheets.raw_row) (normalized : list dict) :
  Sheets.get_tasks rows = Ok normalized ->
  (forall task, task ∈ normalized ->
     is_Some (task !! "task") /\ is_Some (task !! "assigned_to")
     /\ is_Some (task !! "cron_frequency") /\ is_Some (task !! "last_completed")
     /\ is_Some (task !! "visible")
     /\ task !! "cron_frequency" <> Some (VStr ""))
  /\ (forall i row, rows !! i = Some row -> cron_cell_blank row ->
       exists task, normalized !! i = Some task
         /\ task !! "cron_frequency" = Some VNone
         /\ forall prev clock,
              let previous_task := previous_task_of (previous_data_by_name prev) task in
              exists r, update_tasks prev clock normalized !! i = Some r
                /\ r !! "state" = Some (get_d previous_task "state" (VStr "not_completed"))
                /\ r !! "visible" = Some (get_d previous_task "visible" (VBool true))).
Proof.
  rewrite SheetsFacts.get_tasks_eq. destruct rows as [|row0 rows0] eqn:Hrows; [done|].
  rewrite <- Hrows. intros [= <-]. split.
  - intros task (row & -> & _)%list_elem_of_fmap.
    destruct (SheetsFacts.clean_task_known row) as (-> & -> & Hc & -> & ->).
    rewrite Hc. repeat (split; [by eexists|]).
    intros [= Hbad]. by apply SheetsFacts.or_none_not_empty in Hbad.
  - intros i row Hi Hblank. exists (Sheets.clean_task row).
    assert (map Sheets.clean_task rows !! i = Some (Sheets.clean_task row)) as Hn.
    { by rewrite list_lookup_fmap, Hi. }
    assert (Sheets.clean_task row !! "cron_frequency" = Some VNone) as Hcron.
    { destruct (SheetsFacts.clean_task_known row) as (_ & _ & -> & _).
      by rewrite SheetsFacts.cron_cell_blank_or_none. }
    split; [done|]. split; [done|].
    intros prev clock previous_task. eexists.
    split; [by apply update_tasks_lookup|].
    assert (due_again (clock i)
              (merge_task (previous_data_by_name prev) (Sheets.clean_task row))
            = false) as Hd.
    { rewrite due_again_merge_task. unfold get. rewrite Hcron.
      cbn [default is_none negb]. by rewrite andb_false_r. }
    unfold reactivate. rewrite Hd.
    by rewrite merge_task_state, merge_task_visible.
Qed.

End ReconciliationFacts.

(** ** The store and the published list *)

Lemma find_task_Some (h : store) (tasks : list loc) (name : string)
    (l : loc) (task : dict) :
  find_task h tasks name = Some (l, task) ->
  l ∈ tasks /\ h !! l = Some task /\ task !! "task" = Some (VStr name).
Proof.
  induction tasks as [|l0 tasks IH]; simpl; [done|].
  destruct (h !! l0) as [t|] eqn:Hl0.
  - destruct (py_eqb (get t "task") (VStr name)) eqn:Heq.
    + intros [= <- <-]. split; [apply list_elem_of_here|]. split; [done|].
      apply py_eqb_str in Heq. unfold get in Heq.
      destruct (t !! "task"); simpl in Heq; congruence.
    + intros Hf. destruct (IH Hf) as (? & ? & ?).
      split; [by apply list_elem_of_further|done].
  - intros Hf. destruct (IH Hf) as (? & ? & ?).
    split; [by apply list_elem_of_further|done].
Qed.

Lemma find_task_truthy (h : store) (tasks : list loc) (name : string)
    (l : loc) (task : dict) :
  find_task h tasks name = Some (l, task) -> dict_truthy task = true.
Proof.
  intros (_ & _ & Hk)%find_task_Some. by eapply dict_truthy_lookup.
Qed.

Lemma elem_of_deref (h : store) (tasks : list loc) (l : loc) (task : dict) :
  l ∈ tasks -> h !! l = Some task -> task ∈ deref h tasks.
Proof. intros Hl Hh. unfold deref. apply list_elem_of_omap. by exists l. Qed.

Lemma deref_app_seq (h new : list dict) :
  deref (h ++ new) (seq (length h) (length new)) = new.
Proof.
  revert h. induction new as [|d new IH]; intros h; [done|].
  unfold deref in *. cbn [length seq omap list_omap].
  rewrite list_lookup_middle by done.
  specialize (IH (h ++ [d])).
  rewrite <- app_assoc, length_app in IH. simpl in IH.
  rewrite Nat.add_1_r in IH. by rewrite IH.
Qed.

Lemma fetch_tasks_Err {S : StrLib} (f : fetch) :
  fetch_raises f <-> exists e, fetch_tasks f = Err e.
Proof.
  destruct f as [msg|msg|rows]; simpl.
  - split; [by eexists|done].
  - split; [by eexists|done].
  - rewrite SheetsFacts.get_tasks_eq.
    destruct rows; split; try done; [by eexists|by intros [? ?]].
Qed.

Section RefreshFacts.
Context {S : StrLib} `{TimeLib}.

(** When the fetch step of a tick raises, [_async_update_data] raises
    [UpdateFailed] and logs its warning, nothing is published, and the
    published list and every task dictionary are what they were before
    the tick.  The host logs the error and tells the listeners when the
    update before had succeeded, and does neither when it had failed. *)
Lemma failed_fetch_keeps_published_list (c : coordinator) (f : fetch)
    (clock : nat -> datetime) :
  fetch_raises f ->
  (exists e, _async_update_data c f clock = Err (UpdateFailed e))
  /\ heap (async_refresh c f clock).1 = heap c
  /\ data (async_refresh c f clock).1 = data c
  /\ last_update_success (async_refresh c f clock).1 = false
  /\ existsb is_published (async_refresh c f clock).2 = false
  /\ (async_refresh c f clock).2
     = LogWarning "Failed to update tasks"
       :: (if last_update_success c
           then [LogError "Error fetching google_task_list_data data";
                 ListenersUpdated]
           else []).
Proof.
  intros [e He]%fetch_tasks_Err.
  unfold async_refresh, _async_update_data. rewrite He. cbn [fst snd heap data
    last_update_success].
  split; [by eexists|]. repeat (split; [done|]).
  split; [|done]. by destruct (last_update_success c).
Qed.

(** A sheet with at least one row is always published, whatever its
    header is: the fetch step does not raise for it. *)
Lemma nonempty_sheet_is_published (c : coordinator) (row : Sheets.raw_row)
    (rows : list Sheets.raw_row) (clock : nat -> datetime) :
  let updated_tasks :=
    update_tasks (previous_tasks c) clock (map Sheets.clean_task (row :: rows)) in
  async_refresh c (Records (row :: rows)) clock =
    ({| heap := heap c ++ updated_tasks;
        data := Some (seq (length (heap c)) (length updated_tasks));
        last_update_success := true |},
     [Published (seq (length (heap c)) (length updated_tasks)) updated_tasks]).
Proof.
  cbv zeta. unfold async_refresh, _async_update_data, fetch_tasks.
  by rewrite SheetsFacts.get_tasks_eq.
Qed.

Lemma async_refresh_heap (c : coordinator) (f : fetch) (clock : nat -> datetime)
    (l : loc) (task : dict) :
  heap c !! l = Some task -> heap (async_refresh c f clock).1 !! l = Some task.
Proof.
  intros Hl. unfold async_refresh.
  destruct (_async_update_data c f clock) as [updated|[e]]; simpl; [|done].
  by apply lookup_app_l_Some.
Qed.

Lemma async_refresh_success (c : coordinator) (f : fetch) (clock : nat -> datetime)
    (raw_tasks : list dict) :
  fetch_tasks f = Ok raw_tasks ->
  let updated_tasks := update_tasks (previous_tasks c) clock raw_tasks in
  async_refresh c f clock =
    ({| heap := heap c ++ updated_tasks;
        data := Some (seq (length (heap c)) (length updated_tasks));
        last_update_success := true |},
     [Published (seq (length (heap c)) (length updated_tasks)) updated_tasks]).
Proof.
  intros Hf. unfold async_refresh, _async_update_data. by rewrite Hf.
Qed.

End RefreshFacts.

(** ** Completing and reopening a task *)

Lemma update_task_status_cell {S : StrLib} (ws : worksheets) (task_name stamp : string)
    (row col : nat) (v : string) :
  SheetUpdateCell row col v ∈ (update_task_status ws task_name stamp).1 -> v = stamp.
Proof.
  unfold update_task_status.
  destruct (ws_find ws task_name) as [[r|]|]; simpl; [|set_solver..].
  destruct (ws_row_values ws) as [header|]; simpl; [|set_solver].
  destruct (index_of _ _) as [i|]; simpl; [|set_solver].
  destruct (ws_update_cell ws r (i + 1) stamp); simpl; set_solver.
Qed.

Lemma log_action_no_cell (ws : worksheets) (task_name action user : string)
    (row col : nat) (v : string) :
  SheetUpdateCell row col v ∉ (log_action ws task_name action user).1.
Proof.
  unfold log_action. destruct (ws_append_row ws _); simpl; set_solver.
Qed.

Lemma sheet_events_not_published {S : StrLib}
    (ws : worksheets) (task_name stamp action user : string) :
  existsb is_published (update_task_status ws task_name stamp).1 = false
  /\ existsb is_published (log_action ws task_name action user).1 = false.
Proof.
  split.
  - unfold update_task_status.
    destruct (ws_find ws task_name) as [[r|]|]; simpl; try done.
    destruct (ws_row_values ws) as [header|]; simpl; try done.
    destruct (index_of _ _) as [i|]; simpl; try done.
    by destruct (ws_update_cell ws r (i + 1) stamp).
  - unfold log_action. by destruct (ws_append_row ws _).
Qed.

(** The completion is written into the dictionary that the published
    list refers to. *)
Lemma async_complete_task_found {S : StrLib} (c : coordinator) (ws : worksheets)
    (task_name user_id now : string) (tasks : list loc) (l : loc) (task : dict) :
  data c = Some tasks ->
  find_task (heap c) tasks task_name = Some (l, task) ->
  exists rest,
    async_complete_task c ws task_name user_id now =
      ({| heap := <[l := completed_task task now]> (heap c); data := Some tasks;
          last_update_success := true |},
       Published tasks (deref (<[l := completed_task task now]> (heap c)) tasks) :: rest)
    /\ existsb is_published rest = false
    /\ (forall row col v, SheetUpdateCell row col v ∈ rest -> v = now)
    /\ (forall e, (update_task_status ws task_name now).2 = Some e ->
          last rest = Some (LogError "Error completing task"))
    /\ (forall e, (update_task_status ws task_name now).2 = None ->
          (log_action ws task_name "completed" user_id).2 = Some e ->
          last rest = Some (LogError "Error completing task")).
Proof.
  intros Hd Hf. unfold async_complete_task. rewrite Hd, Hf.
  rewrite (find_task_truthy (heap c) tasks task_name l task Hf). cbn [negb].
  fold (completed_task task now). unfold async_set_updated_data. cbn [heap].
  assert (forall evs, existsb is_published (evs ++ [LogError "Error completing task"])
                      = existsb is_published evs) as Hsnoc.
  { intros evs. by rewrite existsb_app, orb_false_r. }
  destruct (sheet_events_not_published ws task_name now "completed" user_id)
    as [Hu Hg].
  pose proof (update_task_status_cell ws task_name now) as Hcell.
  pose proof (log_action_no_cell ws task_name "completed" user_id) as Hnocell.
  destruct (update_task_status ws task_name now) as [ev1 [e1|]] eqn:Hu1;
    [|destruct (log_action ws task_name "completed" user_id) as [ev2 [e2|]] eqn:Hl2];
    cbn [fst snd] in *; eexists; (split; [reflexivity|]).
  - rewrite Hsnoc. split; [done|]. split; [set_solver|]. split; [|done].
    intros _ _. by rewrite last_snoc.
  - rewrite app_assoc, Hsnoc, existsb_app, Hu, Hg.
    split; [done|]. split; [set_solver|]. split; [done|].
    intros _ _ _. by rewrite last_snoc.
  - rewrite existsb_app, Hu, Hg. split; [done|]. split; [set_solver|]. split; done.
Qed.

Lemma async_incomplete_pending_task_found (c : coordinator) (task_name : string)
    (tasks : list loc) (l : loc) (task : dict) :
  data c = Some tasks ->
  find_task (heap c) tasks task_name = Some (l, task) ->
  let reopened := <["visible" := VBool true]> (<["state" := VStr "not_completed"]> task) in
  async_incomplete_pending_task c task_name =
    ({| heap := <[l := reopened]> (heap c); data := Some tasks;
        last_update_success := true |},
     [Published tasks (deref (<[l := reopened]> (heap c)) tasks)]).
Proof.
  intros Hd Hf. unfold async_incomplete_pending_task. rewrite Hd, Hf.
  by rewrite (find_task_truthy (heap c) tasks task_name l task Hf).
Qed.

Lemma completed_task_fields (task : dict) (now : string) :
  completed_task task now !! "state" = Some (VStr "completed")
  /\ completed_task task now !! "visible" = Some (VBool false)
  /\ completed_task task now !! "last_completed" = Some (VStr now)
  /\ forall k, k <> "state" -> k <> "visible" -> k <> "last_completed" ->
       completed_task task now !! k = task !! k.
Proof. unfold completed_task. repeat split; intros; by simplify_map_eq. Qed.

(** C7: when [async_complete_task] is called with the name of a task of
    the published list, the first thing that happens outside the
    coordinator is the publication of the list, in which the task is
    completed, hidden and stamped with [now]; the calls to the sheet come
    after it.  When [update_task_status] or [log_action] raises, the last
    event is the error that is logged, and the task dictionary is the
    completed one all the same. *)
Theorem complete_publishes_before_writing {S : StrLib}
    (c : coordinator) (ws : worksheets)
    (task_name user_id now : string) (tasks : list loc) (l : loc) (task : dict) :
  data c = Some tasks ->
  find_task (heap c) tasks task_name = Some (l, task) ->
  let c' := (async_complete_task c ws task_name user_id now).1 in
  let evs := (async_complete_task c ws task_name user_id now).2 in
  let external_write_fails :=
    (update_task_status ws task_name now).2 <> None
    \/ (log_action ws task_name "completed" user_id).2 <> None in
  exists done,
    heap c' !! l = Some done
    /\ done !! "state" = Some (VStr "completed")
    /\ done !! "visible" = Some (VBool false)
    /\ done !! "last_completed" = Some (VStr now)
    /\ data c' = Some tasks
    /\ (exists rest, evs = Published tasks (deref (heap c') tasks) :: rest
          /\ done ∈ deref (heap c') tasks
          /\ existsb is_published rest = false
          /\ (external_write_fails -> last rest = Some (LogError "Error completing task")))
    /\ (forall row col v, SheetUpdateCell row col v ∈ evs -> v = now).
Proof.
  intros Hd Hf c' evs fails. subst c' evs fails.
  destruct (async_complete_task_found c ws task_name user_id now tasks l task Hd Hf)
    as (rest & Heq & Hpub & Hcell & Hfail1 & Hfail2).
  destruct (find_task_Some _ _ _ _ _ Hf) as (Hin & Hl & _).
  destruct (completed_task_fields task now) as (Hs & Hv & Hc & _).
  assert (<[l := completed_task task now]> (heap c) !! l
          = Some (completed_task task now)) as Hnew.
  { apply list_lookup_insert_eq. by apply lookup_lt_Some in Hl. }
  exists (completed_task task now). rewrite Heq. cbn [fst snd heap data].
  repeat (split; [done|]). split.
  - exists rest. split; [done|]. split; [by apply (elem_of_deref _ _ l)|].
    split; [done|]. intros [Hu|Hg].
    + destruct (update_task_status ws task_name now).2 as [e|] eqn:He; [|done].
      by apply (Hfail1 e).
    + destruct (update_task_status ws task_name now).2 as [e|] eqn:He.
      * by apply (Hfail1 e).
      * destruct (log_action ws task_name "completed" user_id).2 as [e|] eqn:Hge;
          [|done]. by apply (Hfail2 e).
  - intros row col v [Hp|Hr]%elem_of_cons; [done|]. by apply (Hcell row col).
Qed.

Lemma complete_publishes_before_writing_witness :
  exists done,
    heap (async_complete_task (S := ascii_text) Examples.two_tasks Examples.sheet_down
            "A" "Harvey" "2024-01-01T08:00:00").1 !! 0 = Some done
    /\ done !! "state" = Some (VStr "completed").
Proof.
  destruct (complete_publishes_before_writing (S := ascii_text) Examples.two_tasks Examples.sheet_down
              "A" "Harvey" "2024-01-01T08:00:00" [0; 1] 0
              (Examples.task_dict "A" "not_completed" true) eq_refl eq_refl)
    as (done & Hl & Hs & _).
  by exists done.
Defined.

(** The completion of task A changes the dictionary that the list
    published before the call refers to: whoever still holds that list
    sees task A completed. *)
Lemma complete_changes_held_snapshot :
  ~ snapshot_untouched Examples.two_tasks
      (async_complete_task (S := ascii_text) Examples.two_tasks Examples.sheet_ok
         "A" "Harvey" "2024-01-01T08:00:00").1.
Proof.
  intros Hs.
  specialize (Hs [0; 1] 0 (Examples.task_dict "A" "not_completed" true)
                eq_refl (list_elem_of_here 0 [1]) eq_refl).
  apply (f_equal (fun o => o ≫= (fun t : dict => t !! "state"))) in Hs.
  vm_compute in Hs. discriminate Hs.
Qed.

(** C6, at an input where the code departs from it: the published list
    is [A, B] and a reader holds it.  After [async_complete_task] for A
    the dictionary that the held list refers to is the completed one:
    the list published by the call holds the same references, and the
    three assignments have written into the shared dictionary.
    Reopening A and pressing the button of A write into it in the same
    way. *)
Theorem complete_writes_into_held_record :
  let c := Examples.two_tasks in
  let before := Examples.task_dict "A" "not_completed" true in
  let stamp := "2024-01-01T08:00:00" in
  let c1 := (async_complete_task (S := ascii_text) c Examples.sheet_ok
               "A" "Harvey" stamp).1 in
  let c2 := (async_incomplete_pending_task c1 "A").1 in
  let c3 := (Button.async_press (S := ascii_text) Examples.button_A c).1.2 in
  data c = Some [0; 1] /\ heap c !! 0 = Some before
  /\ data c1 = Some [0; 1] /\ heap c1 !! 0 = Some (completed_task before stamp)
  /\ data c2 = Some [0; 1]
  /\ heap c2 !! 0 = Some (reopened_task (completed_task before stamp))
  /\ data c3 = Some [0; 1] /\ heap c3 !! 0 = Some (pending_task before)
  /\ completed_task before stamp !! "state" = Some (VStr "completed")
  /\ before !! "state" = Some (VStr "not_completed").
Proof. cbv zeta. repeat split; vm_compute; reflexivity. Qed.

(** Reopening does the same. *)
Lemma reopen_changes_held_snapshot :
  let c := (Button.async_press (S := ascii_text) Examples.button_A Examples.two_tasks).1.2 in
  ~ snapshot_untouched c (async_incomplete_pending_task c "A").1.
Proof.
  intros c Hs.
  specialize (Hs [0; 1] 0 (pending_task (Examples.task_dict "A" "not_completed" true))
                eq_refl (list_elem_of_here 0 [1])).
  assert (heap c !! 0
          = Some (pending_task (Examples.task_dict "A" "not_completed" true))) as Hc.
  { vm_compute. reflexivity. }
  specialize (Hs Hc).
  apply (f_equal (fun o => o ≫= (fun t : dict => t !! "state"))) in Hs.
  vm_compute in Hs. discriminate Hs.
Qed.

(** ** The button *)

Module ButtonFacts.
Import Button.

Lemma state_unflagged (e : entity) (c : coordinator) (tasks : list loc) :
  pending_state e = false -> data c = Some tasks ->
  state e c = Some (get_d (match find_task (heap c) tasks (task_id e) with
                           | Some (_, task) => task
                           | None => ∅
                           end) "state" (VStr "not_completed")).
Proof.
  intros Hp Hd. unfold state, _get_task_data. by rewrite Hp, Hd.
Qed.

(** A press is turned away exactly by the entity's own flag and by a
    completed state. *)
Lemma async_press_ignored {S : StrLib} (e : entity) (c : coordinator) :
  pending_state e = true
  \/ (is_Some (data c) /\ state e c = Some (VStr "completed")) ->
  exists msg, async_press e c = (e, c, [LogWarning msg]).
Proof.
  unfold async_press. intros [->|[[tasks Hd] Hs]]; [by eexists|].
  destruct (pending_state e); [by eexists|].
  rewrite Hs, Hd. cbn. by eexists.
Qed.

(** Otherwise the press is accepted. *)
Lemma async_press_accepted {S : StrLib}
    (e : entity) (c : coordinator) (tasks : list loc)
    (st : value) :
  pending_state e = false -> data c = Some tasks ->
  state e c = Some st -> st <> VStr "completed" ->
  async_press e c =
    (set_pending_state e true,
     match find_task (heap c) tasks (task_id e) with
     | Some (l, task) =>
         {| heap := <[l := pending_task task]> (heap c); data := data c;
            last_update_success := last_update_success c |}
     | None => c
     end,
     [WriteHaState (entity_id e) (VStr "pending");
      BusFire "google_task_list_button_pressed" (event_data e)]).
Proof.
  intros Hp Hd Hs Hne. unfold async_press. rewrite Hp, Hs, Hd.
  destruct (py_eqb st (VStr "completed")) eqn:Heq.
  - by apply py_eqb_str in Heq.
  - done.
Qed.

(** The three ways a press can go. *)
Lemma async_press_cases {S : StrLib} (e : entity) (c : coordinator) :
  (exists msg, async_press e c = (e, c, [LogWarning msg]))
  \/ async_press e c = (e, c, [Raised "TypeError"])
  \/ (pending_state e = false /\
      exists tasks st, data c = Some tasks /\ state e c = Some st
        /\ st <> VStr "completed"
        /\ async_press e c =
             (set_pending_state e true,
              match find_task (heap c) tasks (task_id e) with
              | Some (l, task) =>
                  {| heap := <[l := pending_task task]> (heap c); data := data c;
                     last_update_success := last_update_success c |}
              | None => c
              end,
              [WriteHaState (entity_id e) (VStr "pending");
               BusFire "google_task_list_button_pressed" (event_data e)])).
Proof.
  destruct (pending_state e) eqn:Hp.
  { left. apply async_press_ignored. by left. }
  destruct (data c) as [tasks|] eqn:Hd.
  - destruct (state e c) as [st|] eqn:Hs.
    + destruct (decide (st = VStr "completed")) as [->|Hne].
      * left. apply async_press_ignored. right. by rewrite Hd.
      * right. right. split; [done|]. exists tasks, st.
        repeat (split; [done|]).
        pose proof (async_press_accepted e c tasks st Hp Hd Hs Hne) as Ha.
        by rewrite Hd in Ha.
    + unfold state, _get_task_data in Hs. by rewrite Hp, Hd in Hs.
  - right. left. unfold async_press. rewrite Hp, Hd.
    by destruct (state e c).
Qed.







End ButtonFacts.

(** ** The five-minute schedule *)

Module ScheduleFacts.
Import Schedule.
Local Open Scope Z_scope.

(** Adding five minutes moves the datetime by 300 seconds on the time
    line; it does not overflow as long as the sum is a datetime. *)
Lemma dt_add_five_minutes (now : utc_datetime) :
  valid now -> before_last_five_minutes now ->
  exists next_run, dt_add now (mk_timedelta 0 0 5 0 0) = Some next_run
    /\ valid next_run /\ instant next_run = instant now + 300000000.
Proof.
  unfold valid, before_last_five_minutes, instant, MAXORDINAL.
  intros (Ho & Hh & Hm & Hs & Hu) Hlt.
  unfold dt_add, td_add, mk_timedelta. cbn [td_days td_seconds td_microseconds].
  match goal with |- context [if ?b then _ else _] => destruct b eqn:Hb end.
  - eexists. split; [reflexivity|].
    unfold valid, instant, MAXORDINAL.
    cbn [ordinal hour minute second microsecond].
    apply andb_true_iff in Hb as [Hb1%Z.ltb_lt Hb2%Z.leb_le].
    unfold MAXORDINAL in *.
    Z.to_euclidean_division_equations. lia.
  - exfalso. apply andb_false_iff in Hb as [Hb%Z.ltb_ge|Hb%Z.leb_gt];
      unfold MAXORDINAL in *; Z.to_euclidean_division_equations; lia.
Qed.

(** X20: In the last five minutes of the last day the addition raises
    [OverflowError], and no refresh time is computed. *)
Lemma schedule_overflow (now : utc_datetime) :
  valid now -> ~ before_last_five_minutes now ->
  _schedule_five_minutely_refresh now = None.
Proof.
  unfold valid, before_last_five_minutes, instant, MAXORDINAL.
  intros (Ho & Hh & Hm & Hs & Hu) Hlt.
  unfold _schedule_five_minutely_refresh, dt_add, td_add, mk_timedelta.
  cbn [td_days td_seconds td_microseconds].
  match goal with |- context [if ?b then _ else _] => destruct b eqn:Hb end;
    [|done].
  exfalso. apply andb_true_iff in Hb as [Hb1%Z.ltb_lt Hb2%Z.leb_le].
  unfold MAXORDINAL in *. Z.to_euclidean_division_equations. lia.
Qed.

(** The boundaries are the multiples of five minutes on the time line. *)
Lemma boundary_multiple (d : utc_datetime) :
  on_boundary d -> exists k, instant d = 300000000 * k.
Proof.
  intros (Hm & Hs & Hu). unfold instant. rewrite Hs, Hu.
  exists ((ordinal d * 24 + hour d) * 12 + minute d / 5).
  Z.to_euclidean_division_equations. lia.
Qed.

(** C9: for every reading [now] of the UTC clock (up to the last five
    minutes that a [datetime] can hold) the time computed for the next
    refresh lies on a five-minute boundary, with seconds and
    microseconds zero, is strictly later than [now], and no other such
    boundary later than [now] comes before it. *)
Theorem next_refresh_is_next_boundary (now : utc_datetime) :
  valid now -> before_last_five_minutes now ->
  exists next_run, _schedule_five_minutely_refresh now = Some next_run
    /\ valid next_run /\ on_boundary next_run
    /\ instant now < instant next_run
    /\ forall d, valid d -> on_boundary d -> instant now < instant d ->
         instant next_run <= instant d.
Proof.
  intros Hv Hlt.
  destruct (dt_add_five_minutes now Hv Hlt) as (nr & Hadd & Hvn & Hin).
  unfold _schedule_five_minutely_refresh. rewrite Hadd. cbn [mbind option_bind].
  eexists. split; [reflexivity|].
  set (r := replace_minute _ _).
  assert (valid r /\ on_boundary r
          /\ instant r <= instant nr < instant r + 300000000) as (Hvr & Hbr & Hir).
  { subst r. unfold valid, on_boundary, instant, replace_minute,
      replace_second_microsecond in *.
    cbn [ordinal hour minute second microsecond].
    Z.to_euclidean_division_equations. lia. }
  split; [done|]. split; [done|]. split; [lia|].
  intros d Hvd Hbd Hd.
  destruct (boundary_multiple d Hbd) as [k Hk].
  destruct (boundary_multiple r Hbr) as [k' Hk']. lia.
Qed.

Lemma next_refresh_is_next_boundary_witness :
  exists next_run,
    _schedule_five_minutely_refresh
      {| ordinal := 738886; hour := 23; minute := 58; second := 30;
         microsecond := 250 |} = Some next_run
    /\ on_boundary next_run.
Proof.
  destruct (next_refresh_is_next_boundary
              {| ordinal := 738886; hour := 23; minute := 58; second := 30;
                 microsecond := 250 |}) as (next_run & Heq & _ & Hb & _).
  - unfold valid, MAXORDINAL. simpl. lia.
  - unfold before_last_five_minutes, instant, MAXORDINAL. simpl. lia.
  - by exists next_run.
Defined.

(** Half a minute before midnight the next refresh is at 00:00 of the
    next day; on a boundary it is five minutes later. *)
Example schedule_across_midnight :
  _schedule_five_minutely_refresh
    {| ordinal := 738886; hour := 23; minute := 59; second := 30; microsecond := 250 |}
  = Some {| ordinal := 738887; hour := 0; minute := 0; second := 0; microsecond := 0 |}.
Proof. reflexivity. Qed.

Example schedule_on_boundary :
  _schedule_five_minutely_refresh
    {| ordinal := 738886; hour := 10; minute := 15; second := 0; microsecond := 0 |}
  = Some {| ordinal := 738886; hour := 10; minute := 20; second := 0; microsecond := 0 |}.
Proof. reflexivity. Qed.

End ScheduleFacts.

(** ** Instances and examples *)

Lemma update_tasks_merge_witness :
  exists r,
    @update_tasks day_clock [Examples.task_dict "A" "completed" false] (fun _ => 10%Z)
      [Sheets.clean_task (S := ascii_text) [("Task", VStr "A")]] !! 0 = Some r
    /\ r !! "state" = Some (VStr "completed")
    /\ r !! "visible" = Some (VBool false).
Proof.
  destruct (update_tasks_merge (H := day_clock) [Examples.task_dict "A" "completed" false]
              (fun _ => 10%Z) [Sheets.clean_task (S := ascii_text) [("Task", VStr "A")]]) as [_ Hm].
  destruct (Hm 0 _ eq_refl) as (Hr & _ & Hlast & _).
  eexists. split; [exact Hr|].
  vm_compute. split; reflexivity.
Defined.

Lemma reactivation_exactly_when_due_witness :
  exists r,
    @update_tasks day_clock [Examples.task_dict "A" "completed" false] (fun _ => 10%Z)
      [Sheets.clean_task (S := ascii_text) [("Task", VStr "A"); ("Cron_Frequency", VStr "0 8 * * *")]] !! 0
    = Some r
    /\ r !! "state" = Some (VStr "not_completed")
    /\ r !! "visible" = Some (VBool true).
Proof.
  destruct (reactivation_exactly_when_due (H := day_clock)
              [Examples.task_dict "A" "completed" false] (fun _ => 10%Z)
              [Sheets.clean_task (S := ascii_text) [("Task", VStr "A"); ("Cron_Frequency", VStr "0 8 * * *")]]
              0 _ eq_refl) as (r & Hr & Hdue & _).
  exists r. split; [exact Hr|]. apply Hdue.
  vm_compute. repeat split. discriminate.
Defined.

(** C4, at an input where the code departs from it: the sheet has a
    row, and its header has none of the required columns.  The tick does
    not fail: [_async_update_data] returns a task list, and the list is
    published in place of the one published before. *)
Theorem missing_columns_tick_publishes :
  let c := Examples.two_tasks in
  let f := Records [[("name", VStr "x")]] in
  let new_task : dict :=
    {[ "task" := VStr ""; "assigned_to" := VStr "unknown";
       "cron_frequency" := VNone; "last_completed" := VStr "";
       "visible" := VBool true; "name" := VStr "x";
       "state" := VStr "not_completed" ]} in
  _async_update_data (S := ascii_text) (H := day_clock) c f (fun _ => 10%Z)
  = Ok [new_task]
  /\ data c = Some [0; 1]
  /\ data (async_refresh (S := ascii_text) (H := day_clock) c f (fun _ => 10%Z)).1
     = Some [2]
  /\ (async_refresh (S := ascii_text) (H := day_clock) c f (fun _ => 10%Z)).2
     = [Published [2] [new_task]].
Proof. vm_compute. repeat split. Qed.

Lemma failed_fetch_keeps_published_list_witness :
  data (async_refresh (S := ascii_text) (H := day_clock) Examples.two_tasks
          (Records []) (fun _ => 10%Z)).1
  = Some [0; 1].
Proof.
  destruct (failed_fetch_keeps_published_list (S := ascii_text) (H := day_clock)
              Examples.two_tasks (Records []) (fun _ => 10%Z) eq_refl)
    as (_ & _ & Hd & _).
  exact Hd.
Defined.

Lemma get_tasks_normalised_witness :
  exists task,
    [Sheets.clean_task (S := ascii_text) [("Task", VStr "A"); ("Cron_Frequency", VStr "  ")]] !! 0
    = Some task
    /\ task !! "cron_frequency" = Some VNone.
Proof.
  destruct (get_tasks_normalised (S := ascii_text) (H := day_clock)
              [[("Task", VStr "A"); ("Cron_Frequency", VStr "  ")]]
              [Sheets.clean_task (S := ascii_text) [("Task", VStr "A"); ("Cron_Frequency", VStr "  ")]]
              eq_refl) as [_ Hb].
  destruct (Hb 0 _ eq_refl) as (task & Ht & Hc & _).
  - intros k v [[= -> ->]|[[= -> ->]|Hin%elem_of_nil]%elem_of_cons]%elem_of_cons.
    + discriminate.
    + intros _. reflexivity.
    + done.
  - by exists task.
Defined.

(** The button of the examples is the one that [__init__] builds for
    task A. *)
Example new_entity_button_A :
  Button.new_entity (S := ascii_text) Examples.two_tasks "entry" "A" "PT Tasks" "H_Chore"
  = Some Examples.button_A.
Proof. vm_compute. reflexivity. Qed.

(** The merge of the specification's example: the previous list has
    task A completed and hidden, the fresh row has no recurrence; the
    new dictionary keeps the state and the visibility and takes the
    timestamp of the row. *)
Example merge_keeps_state :
  @update_tasks day_clock
    [ {[ "task" := VStr "A"; "state" := VStr "completed"; "visible" := VBool false ]} ]
    (fun _ => 10%Z)
    [Sheets.clean_task (S := ascii_text) [("Task", VStr "A"); ("Last_Completed", VStr "2024-01-01T00:00:00")]]
  = [ {[ "task" := VStr "A"; "assigned_to" := VStr "unknown";
         "cron_frequency" := VNone; "last_completed" := VStr "2024-01-01T00:00:00";
         "visible" := VBool false; "state" := VStr "completed" ]} ].
Proof. vm_compute. reflexivity. Qed.

Example get_tasks_ex :
  Sheets.get_tasks (S := ascii_text) [[("Task", VStr " Dishes "); ("Cron_Frequency", VStr "  "); ("Notes", VInt 3)]]
  = Ok [ {[ "task" := VStr "Dishes"; "assigned_to" := VStr "unknown";
            "cron_frequency" := VNone; "last_completed" := VStr "";
            "visible" := VBool true; "notes" := VInt 3 ]} ].
Proof. vm_compute. reflexivity. Qed.

(** * Further properties *)

(** ** The rows that [get_tasks] returns *)

Module SheetsMore.
Import Sheets.

Lemma lower_ascii_idemp (c : ascii) : lower_ascii (lower_ascii c) = lower_ascii c.
Proof. destruct c as [[] [] [] [] [] [] [] []]; reflexivity. Qed.

Lemma ascii_lower_idemp (s : string) : ascii_lower (ascii_lower s) = ascii_lower s.
Proof.
  induction s as [|c s IH]; [done|]. simpl. by rewrite lower_ascii_idemp, IH.
Qed.

Lemma ascii_text_keeps_keys : lower_keeps_keys (S := ascii_text).
Proof.
  split; [apply ascii_lower_idemp|]. repeat (apply Forall_cons; split; [done|]).
  apply Forall_nil_2.
Qed.

Lemma foldl_lower_notin {S : StrLib} (row : raw_row) (acc : dict) (key : string) :
  key ∉ lowered_headers row ->
  foldl (fun d kv => <[lower kv.1 := strip_value kv.2]> d) acc row !! key
  = acc !! key.
Proof.
  unfold lowered_headers. revert acc.
  induction row as [|[k0 v0] row IH]; intros acc Hn; [done|].
  simpl in *. apply not_elem_of_cons in Hn as [Hne Hn].
  rewrite IH by done. by rewrite lookup_insert_ne.
Qed.

Lemma task_lower_last {S : StrLib} (pre post : raw_row) (k : string) (v : value) :
  lower k ∉ lowered_headers post ->
  task_lower (pre ++ (k, v) :: post) !! lower k = Some (strip_value v).
Proof.
  intros Hn. unfold task_lower. rewrite foldl_app. simpl.
  rewrite foldl_lower_notin by done. apply lookup_insert_eq.
Qed.

Lemma task_lower_absent {S : StrLib} (row : raw_row) (key : string) :
  column_absent row key -> task_lower row !! key = None.
Proof.
  intros Ha. destruct (task_lower row !! key) as [v|] eqn:Hl; [|done].
  destruct (SheetsFacts.task_lower_lookup _ _ _ Hl) as (k0 & v0 & Hin & Hk & _).
  by destruct (Ha k0 v0 Hin).
Qed.

(** X1: [get_tasks] fails exactly on a sheet without rows, with the error
    for an empty sheet; on every other sheet it returns one dictionary
    for each row, in the order of the rows. *)
Theorem get_tasks_shape {S : StrLib} (rows : list raw_row) :
  (rows = [] <-> get_tasks rows = Err NoTasksFound)
  /\ (rows <> [] <->
      exists normalized, get_tasks rows = Ok normalized
        /\ length normalized = length rows
        /\ forall i row, rows !! i = Some row ->
             normalized !! i = Some (clean_task row)).
Proof.
  rewrite SheetsFacts.get_tasks_eq. destruct rows as [|row rows].
  - split; [done|]. split; [done|]. by intros (? & ? & _).
  - split; [done|]. split; [|done]. intros _. eexists. split; [done|].
    split; [by rewrite length_map|].
    intros i r Hi. by rewrite list_lookup_fmap, Hi.
Qed.

(** X2: Every key of a dictionary that [get_tasks] returns is in lower
    case, that is, lowering it changes nothing; this rests on two facts
    about [str.lower]: lowering twice is lowering once, and the five
    known key names are in lower case. *)
Theorem clean_task_keys_lower {S : StrLib} (row : raw_row) (k : string) :
  lower_keeps_keys ->
  is_Some (clean_task row !! k) -> lower k = k.
Proof.
  intros [Hidemp Hkeys]. unfold clean_task. cbv zeta. intros [v Hv].
  apply lookup_union_Some_raw in Hv as [Hv|[_ Hv]].
  - rewrite Forall_forall in Hkeys. apply Hkeys.
    repeat (apply lookup_insert_Some in Hv as [[<- _]|[_ Hv]]; [set_solver|]).
    by rewrite lookup_empty in Hv.
  - destruct (SheetsFacts.task_lower_lookup _ _ _ Hv) as (k0 & _ & _ & <- & _).
    apply Hidemp.
Qed.

Lemma clean_task_keys_lower_witness :
  ascii_lower "notes" = "notes".
Proof.
  apply (clean_task_keys_lower (S := ascii_text)
           [("Task", VStr "A"); ("Notes", VInt 3)] "notes").
  - apply ascii_text_keeps_keys.
  - vm_compute. by eexists.
Defined.

(** X3: A cell whose lowered header does not occur again further right in
    the row is found in the dictionary under that lowered header,
    stripped if it is a string (of two columns with the same lowered
    header the right one wins).  The recurrence cell is the exception:
    when it is blank the dictionary has [None]. *)
Theorem clean_task_cells {S : StrLib} (pre post : raw_row) (k : string) (v : value) :
  lower k ∉ lowered_headers post ->
  clean_task (pre ++ (k, v) :: post) !! lower k
  = Some (if decide (lower k = "cron_frequency")
          then (if truthy (strip_value v) then strip_value v else VNone)
          else strip_value v).
Proof.
  intros Hn. pose proof (task_lower_last pre post k v Hn) as Hl.
  set (row := pre ++ (k, v) :: post) in *.
  destruct (SheetsFacts.clean_task_known row) as (Ht & Ha & Hc & Hlc & Hv).
  case_decide as Hcron.
  - rewrite Hcron in *. rewrite Hc, Hl. done.
  - destruct (decide (lower k = "task")) as [E|?];
      [rewrite E in *; rewrite Ht; unfold get_d; by rewrite Hl|].
    destruct (decide (lower k = "assigned_to")) as [E|?];
      [rewrite E in *; rewrite Ha; unfold get_d; by rewrite Hl|].
    destruct (decide (lower k = "last_completed")) as [E|?];
      [rewrite E in *; rewrite Hlc; unfold get_d; by rewrite Hl|].
    destruct (decide (lower k = "visible")) as [E|?];
      [rewrite E in *; rewrite Hv; unfold get_d; by rewrite Hl|].
    by rewrite SheetsFacts.clean_task_other.
Qed.

Lemma clean_task_cells_witness :
  clean_task (S := ascii_text) [("task", VStr "old"); ("Task", VStr " Dishes "); ("Notes", VInt 3)]
    !! "task"
  = Some (VStr "Dishes").
Proof.
  apply (clean_task_cells (S := ascii_text) [("task", VStr "old")] [("Notes", VInt 3)]
           "Task" (VStr " Dishes ")).
  intros [Hd|Hd%elem_of_nil]%elem_of_cons; [discriminate|done].
Defined.

(** X4: The defaults of [get_tasks]: a row without a column for the task
    name, the assignee, the recurrence, the last completion or the
    visibility gets the empty name, the assignee [unknown], no
    recurrence, the empty timestamp and visibility [True]. *)
Theorem clean_task_defaults {S : StrLib} (row : raw_row) :
  (column_absent row "task" -> clean_task row !! "task" = Some (VStr ""))
  /\ (column_absent row "assigned_to" ->
      clean_task row !! "assigned_to" = Some (VStr "unknown"))
  /\ (column_absent row "cron_frequency" ->
      clean_task row !! "cron_frequency" = Some VNone)
  /\ (column_absent row "last_completed" ->
      clean_task row !! "last_completed" = Some (VStr ""))
  /\ (column_absent row "visible" ->
      clean_task row !! "visible" = Some (VBool true)).
Proof.
  destruct (SheetsFacts.clean_task_known row) as (-> & -> & -> & -> & ->).
  unfold get_d.
  repeat split; intros Ha; by rewrite (task_lower_absent _ _ Ha).
Qed.

Lemma clean_task_defaults_witness :
  clean_task (S := ascii_text) [("Task", VStr "A")] !! "assigned_to" = Some (VStr "unknown").
Proof.
  destruct (clean_task_defaults (S := ascii_text) [("Task", VStr "A")]) as (_ & Ha & _).
  apply Ha. intros k v [[= -> ->]|Hin%elem_of_nil]%elem_of_cons; [discriminate|done].
Defined.

End SheetsMore.

(** ** Looking a task up by its name *)

Lemma find_task_None (h : store) (tasks : list loc) (task_name : string) :
  find_task h tasks task_name = None <-> unknown_task h tasks task_name.
Proof.
  unfold unknown_task. induction tasks as [|l0 tasks IH]; simpl.
  - split; [|done]. intros _ l task Hl. by apply elem_of_nil in Hl.
  - destruct (h !! l0) as [t|] eqn:Hl0.
    + destruct (py_eqb (get t "task") (VStr task_name)) eqn:Heq.
      * split; [done|]. intros Hu. apply py_eqb_str in Heq.
        by destruct (Hu l0 t (list_elem_of_here _ _) Hl0).
      * rewrite IH. split.
        -- intros Hu l task [->|Hin]%elem_of_cons Hl; [|by eapply Hu].
           rewrite Hl0 in Hl. injection Hl as <-. intros Hn.
           apply py_eqb_str in Hn. congruence.
        -- intros Hu l task Hin. apply Hu. by apply list_elem_of_further.
    + rewrite IH. split.
      * intros Hu l task [->|Hin]%elem_of_cons Hl; [congruence|by eapply Hu].
      * intros Hu l task Hin. apply Hu. by apply list_elem_of_further.
Qed.

(** X5: Of several tasks with the same name the lookup returns the first of
    the list: no task in front of the one returned has the name. *)
Theorem find_task_first (h : store) (tasks : list loc) (task_name : string)
    (l : loc) (task : dict) :
  find_task h tasks task_name = Some (l, task) ->
  h !! l = Some task /\ get task "task" = VStr task_name
  /\ exists front back, tasks = front ++ l :: back
       /\ unknown_task h front task_name.
Proof.
  induction tasks as [|l0 tasks IH]; simpl; [done|].
  destruct (h !! l0) as [t|] eqn:Hl0.
  - destruct (py_eqb (get t "task") (VStr task_name)) eqn:Heq.
    + intros [= <- <-]. split; [done|]. split; [by apply py_eqb_str|].
      exists [], tasks. split; [done|]. by apply find_task_None.
    + intros Hf. destruct (IH Hf) as (Hl & Hn & front & back & -> & Hu).
      split; [done|]. split; [done|].
      exists (l0 :: front), back. split; [done|].
      intros l' t' [->|Hin]%elem_of_cons Hl'; [|by eapply Hu].
      rewrite Hl0 in Hl'. injection Hl' as <-. intros Hn'.
      apply py_eqb_str in Hn'. congruence.
  - intros Hf. destruct (IH Hf) as (Hl & Hn & front & back & -> & Hu).
    split; [done|]. split; [done|].
    exists (l0 :: front), back. split; [done|].
    intros l' t' [->|Hin]%elem_of_cons Hl'; [congruence|by eapply Hu].
Qed.

Lemma find_task_first_witness :
  exists front back, [0; 1] = front ++ 1 :: back
    /\ unknown_task (heap Examples.two_tasks) front "B".
Proof.
  destruct (find_task_first (heap Examples.two_tasks) [0; 1] "B" 1
              (Examples.task_dict "B" "not_completed" true) eq_refl)
    as (_ & _ & front & back & Heq & Hu).
  by exists front, back.
Defined.

(** Writing into the task that the lookup returns, without changing its
    name, does not change which task the lookup returns. *)
Lemma find_task_insert (h : store) (tasks : list loc) (task_name : string)
    (l : loc) (task task' : dict) :
  find_task h tasks task_name = Some (l, task) ->
  task' !! "task" = task !! "task" ->
  find_task (<[l := task']> h) tasks task_name = Some (l, task').
Proof.
  intros Hf Hk.
  destruct (find_task_Some _ _ _ _ _ Hf) as (_ & Hl & Hname).
  assert (py_eqb (get task' "task") (VStr task_name) = true) as Hm.
  { apply py_eqb_str. unfold get. by rewrite Hk, Hname. }
  assert (l < length h) as Hlt by (by apply lookup_lt_Some in Hl).
  revert Hf. induction tasks as [|l0 tasks IH]; simpl; [done|].
  destruct (decide (l0 = l)) as [->|Hne].
  - rewrite list_lookup_insert_eq by done. by rewrite Hm.
  - rewrite list_lookup_insert_ne by done.
    destruct (h !! l0) as [t|]; [|done].
    destruct (py_eqb (get t "task") (VStr task_name)); [|done].
    intros [= ? ?]. congruence.
Qed.

Lemma find_task_insert_other (h : store) (tasks : list loc) (task_name : string)
    (l : loc) (task task' : dict) :
  h !! l = Some task ->
  task' !! "task" = task !! "task" ->
  find_task h tasks task_name = None ->
  find_task (<[l := task']> h) tasks task_name = None.
Proof.
  intros Hl Hk Hf.
  assert (l < length h) as Hlt by (by apply lookup_lt_Some in Hl).
  revert Hf. induction tasks as [|l0 tasks IH]; simpl; [done|].
  destruct (decide (l0 = l)) as [->|Hne].
  - rewrite list_lookup_insert_eq by done. rewrite Hl.
    unfold get. rewrite Hk.
    by destruct (py_eqb (default VNone (task !! "task")) (VStr task_name)).
  - rewrite list_lookup_insert_ne by done.
    destruct (h !! l0) as [t|]; [|done].
    by destruct (py_eqb (get t "task") (VStr task_name)).
Qed.

(** ** Writing to the sheet *)

Lemma index_of_Some (x : string) (l : list string) (i : nat) :
  index_of x l = Some i ->
  l !! i = Some x /\ forall j y, j < i -> l !! j = Some y -> y <> x.
Proof.
  revert i. induction l as [|y l IH]; intros i; simpl; [done|].
  destruct (String.eqb y x) eqn:Heq.
  - intros [= <-]. apply String.eqb_eq in Heq as ->. split; [done|]. lia.
  - destruct (index_of x l) as [i'|]; [|done]. simpl. intros [= <-].
    destruct (IH i' eq_refl) as [Hi Hlt]. split; [done|].
    intros [|j] z Hj Hz; simpl in Hz.
    + injection Hz as <-. by apply String.eqb_neq in Heq.
    + apply (Hlt j z); [lia|done].
Qed.

Lemma index_of_None (x : string) (l : list string) :
  index_of x l = None -> x ∉ l.
Proof.
  induction l as [|y l IH]; simpl; [intros _; apply not_elem_of_nil|].
  destruct (String.eqb y x) eqn:Heq; [done|].
  destruct (index_of x l); [done|]. intros _.
  apply String.eqb_neq in Heq. apply not_elem_of_cons. split; [done|by apply IH].
Qed.

(** X6: [update_task_status] calls [update_cell] at most once, and only in
    the row of the cell that [find] returned, in the column of the first
    header that reads [last_completed] once stripped and lowered
    (columns count from 1), with the timestamp it was given.  When
    [find] returns no cell it returns without a call and without an
    exception. *)
Theorem update_task_status_target {S : StrLib}
    (ws : worksheets) (task_name stamp : string) :
  let evs := (update_task_status ws task_name stamp).1 in
  length (filter (fun ev => is_update_cell ev = true) evs) <= 1
  /\ (forall row col v, SheetUpdateCell row col v ∈ evs ->
        ws_find ws task_name = Ok (Some row) /\ v = stamp
        /\ exists header j h, ws_row_values ws = Ok header /\ col = j + 1
             /\ header !! j = Some h /\ lower (strip h) = "last_completed"
             /\ forall j' h', j' < j -> header !! j' = Some h' ->
                  lower (strip h') <> "last_completed")
  /\ (ws_find ws task_name = Ok None ->
        update_task_status ws task_name stamp
        = ([LogWarning "Could not find task to update"], None)).
Proof.
  unfold update_task_status.
  destruct (ws_find ws task_name) as [[r|]|e]; simpl;
    [|split; [lia|split; [set_solver|done]]|split; [lia|split; [set_solver|done]]].
  destruct (ws_row_values ws) as [header|e] eqn:Hh; simpl;
    [|split; [lia|split; [set_solver|done]]].
  destruct (index_of _ _) as [i|] eqn:Hi; simpl;
    [|split; [cbv; lia|split; [set_solver|done]]].
  apply index_of_Some in Hi as [Hi Hfirst].
  rewrite list_lookup_fmap in Hi.
  destruct (header !! i) as [h|] eqn:Hhi; [|done]. injection Hi as Hi.
  assert (forall row col v,
            SheetUpdateCell row col v = SheetUpdateCell r (i + 1) stamp ->
            Ok (Some r) = Ok (Some row) (E := string) /\ v = stamp
            /\ exists header0 j h0, Ok header = Ok header0 (E := string)
                 /\ col = j + 1 /\ header0 !! j = Some h0
                 /\ lower (strip h0) = "last_completed"
                 /\ forall j' h', j' < j -> header0 !! j' = Some h' ->
                      lower (strip h') <> "last_completed") as Hcall.
  { intros row col v [= -> -> ->]. split; [done|]. split; [done|].
    exists header, i, h. repeat (split; [done|]).
    intros j' h' Hlt Hj'. apply (Hfirst j' (lower (strip h')) Hlt).
    by rewrite list_lookup_fmap, Hj'. }
  destruct (ws_update_cell ws r (i + 1) stamp); simpl.
  - split; [cbv; lia|]. split; [|done].
    intros row col v [Heq|Hin%elem_of_nil]%elem_of_cons; [by apply Hcall|done].
  - split; [cbv; lia|]. split; [|done].
    intros row col v [Heq|[Heq|Hin%elem_of_nil]%elem_of_cons]%elem_of_cons;
      [by apply Hcall|done|done].
Qed.

Lemma update_task_status_target_witness :
  exists header j h,
    ws_row_values Examples.sheet_ok = Ok header /\ 4 = j + 1
    /\ header !! j = Some h /\ ascii_lower (ascii_strip h) = "last_completed".
Proof.
  pose proof (update_task_status_target (S := ascii_text) Examples.sheet_ok
                "A" "2024-01-01T08:00:00") as Ht.
  cbv zeta in Ht. destruct Ht as (_ & Hcall & _).
  destruct (Hcall 2 4 "2024-01-01T08:00:00")
    as (_ & _ & header & j & h & Hh & Hj & Hl & Hm & _).
  - vm_compute. apply list_elem_of_here.
  - by exists header, j, h.
Defined.

Lemma update_task_status_no_append {S : StrLib}
    (ws : worksheets) (task_name stamp : string)
    (row : list string) :
  SheetAppendRow row ∉ (update_task_status ws task_name stamp).1.
Proof.
  unfold update_task_status.
  destruct (ws_find ws task_name) as [[r|]|]; simpl; [|set_solver..].
  destruct (ws_row_values ws) as [header|]; simpl; [|set_solver].
  destruct (index_of _ _) as [i|]; simpl; [|set_solver].
  destruct (ws_update_cell ws r (i + 1) stamp); simpl; set_solver.
Qed.

(** ** More on completing and reopening *)

(** X7: The audit row of a completion: when [update_task_status] returns,
    [append_row] is called with the local timestamp, the task name, the
    user and the word [completed], and with no other row; when
    [update_task_status] raises, no row is appended at all. *)
Theorem complete_audit_row {S : StrLib} (c : coordinator) (ws : worksheets)
    (task_name user_id now : string) (tasks : list loc) (l : loc) (task : dict) :
  data c = Some tasks ->
  find_task (heap c) tasks task_name = Some (l, task) ->
  let evs := (async_complete_task c ws task_name user_id now).2 in
  let audit := [ws_now ws; task_name; user_id; "completed"] in
  (forall row, SheetAppendRow row ∈ evs -> row = audit)
  /\ ((update_task_status ws task_name now).2 = None ->
        SheetAppendRow audit ∈ evs)
  /\ ((update_task_status ws task_name now).2 <> None ->
        forall row, SheetAppendRow row ∉ evs).
Proof.
  intros Hd Hf evs audit. subst evs audit.
  unfold async_complete_task. rewrite Hd, Hf.
  rewrite (find_task_truthy (heap c) tasks task_name l task Hf). cbn [negb].
  unfold async_set_updated_data.
  pose proof (update_task_status_no_append ws task_name now) as Hno.
  destruct (update_task_status ws task_name now) as [ev1 [e1|]]; cbn [fst snd] in *.
  - split; [|split; [done|]].
    + intros row Hin. exfalso. apply (Hno row). set_solver.
    + intros _ row Hin. apply (Hno row). set_solver.
  - unfold log_action.
    destruct (ws_append_row ws _); cbn [fst snd].
    + split; [|split; [|done]].
      * intros row Hin. specialize (Hno row). set_solver.
      * intros _. set_solver.
    + split; [|split; [|done]].
      * intros row Hin. specialize (Hno row). set_solver.
      * intros _. set_solver.
Qed.

Lemma complete_audit_row_witness :
  SheetAppendRow ["2024-01-01T08:00:00"; "A"; "Harvey"; "completed"]
  ∈ (async_complete_task (S := ascii_text) Examples.two_tasks Examples.sheet_ok
       "A" "Harvey" "2024-01-01T08:00:00").2.
Proof.
  destruct (complete_audit_row (S := ascii_text) Examples.two_tasks Examples.sheet_ok
              "A" "Harvey" "2024-01-01T08:00:00" [0; 1] 0
              (Examples.task_dict "A" "not_completed" true) eq_refl eq_refl)
    as (_ & Hyes & _).
  apply Hyes. vm_compute. reflexivity.
Defined.

(** X8: Completing or reopening a task whose name is not in the published
    list, or before there is a published list, changes nothing: the
    coordinator is as before, nothing is published, the sheet is not
    called, and one line is logged. *)
Theorem unknown_task_no_effect {S : StrLib} (c : coordinator) (ws : worksheets)
    (task_name user_id now : string) :
  (data c = None
   \/ exists tasks, data c = Some tasks /\ unknown_task (heap c) tasks task_name) ->
  (exists msg, async_complete_task c ws task_name user_id now = (c, [LogWarning msg])
               \/ async_complete_task c ws task_name user_id now = (c, [LogError msg]))
  /\ (exists msg, async_incomplete_pending_task c task_name = (c, [LogWarning msg])
                  \/ async_incomplete_pending_task c task_name = (c, [LogError msg])).
Proof.
  unfold async_complete_task, async_incomplete_pending_task.
  intros [->|(tasks & -> & Hu%find_task_None)].
  - split; eexists; by right.
  - rewrite Hu. split; eexists; by left.
Qed.

Lemma unknown_task_no_effect_witness :
  exists msg,
    async_complete_task (S := ascii_text) Examples.two_tasks Examples.sheet_ok "C" "Harvey" "now"
    = (Examples.two_tasks, [LogWarning msg])
    \/ async_complete_task (S := ascii_text) Examples.two_tasks Examples.sheet_ok "C" "Harvey" "now"
       = (Examples.two_tasks, [LogError msg]).
Proof.
  apply (unknown_task_no_effect (S := ascii_text) Examples.two_tasks Examples.sheet_ok "C" "Harvey" "now").
  right. exists [0; 1]. split; [reflexivity|].
  apply find_task_None. vm_compute. reflexivity.
Defined.

(** X9: Completing or reopening a task only writes into the first task of
    that name: every other task dictionary of the store stays as it is,
    and in the task itself only [state], [visible] and, for a
    completion, [last_completed] change. *)
Theorem complete_reopen_frame {S : StrLib} (c : coordinator) (ws : worksheets)
    (task_name user_id now : string) (tasks : list loc) (l : loc) (task : dict) :
  data c = Some tasks ->
  find_task (heap c) tasks task_name = Some (l, task) ->
  let c1 := (async_complete_task c ws task_name user_id now).1 in
  let c2 := (async_incomplete_pending_task c task_name).1 in
  length (heap c1) = length (heap c) /\ length (heap c2) = length (heap c)
  /\ (forall l', l' <> l ->
        heap c1 !! l' = heap c !! l' /\ heap c2 !! l' = heap c !! l')
  /\ (exists done, heap c1 !! l = Some done
        /\ forall k, k <> "state" -> k <> "visible" -> k <> "last_completed" ->
             done !! k = task !! k)
  /\ (exists reopened, heap c2 !! l = Some reopened
        /\ reopened !! "state" = Some (VStr "not_completed")
        /\ reopened !! "visible" = Some (VBool true)
        /\ forall k, k <> "state" -> k <> "visible" -> reopened !! k = task !! k).
Proof.
  intros Hd Hf c1 c2. subst c1 c2.
  destruct (async_complete_task_found c ws task_name user_id now tasks l task Hd Hf)
    as (rest & -> & _).
  rewrite (async_incomplete_pending_task_found c task_name tasks l task Hd Hf).
  cbn [fst heap].
  destruct (find_task_Some _ _ _ _ _ Hf) as (_ & Hl & _).
  assert (l < length (heap c)) as Hlt by (by apply lookup_lt_Some in Hl).
  rewrite !length_insert. split; [done|]. split; [done|]. split.
  { intros l' Hne. by rewrite !list_lookup_insert_ne. }
  rewrite !list_lookup_insert_eq by done. split.
  - eexists. split; [done|]. apply completed_task_fields.
  - eexists. split; [done|]. repeat split; intros; by simplify_map_eq.
Qed.

Lemma complete_reopen_frame_witness :
  heap (async_complete_task (S := ascii_text) Examples.two_tasks Examples.sheet_ok
          "A" "Harvey" "2024-01-01T08:00:00").1 !! 1
  = Some (Examples.task_dict "B" "not_completed" true).
Proof.
  destruct (complete_reopen_frame (S := ascii_text) Examples.two_tasks Examples.sheet_ok
              "A" "Harvey" "2024-01-01T08:00:00" [0; 1] 0
              (Examples.task_dict "A" "not_completed" true) eq_refl eq_refl)
    as (_ & _ & Hother & _).
  destruct (Hother 1) as [H1 _]; [discriminate|]. exact H1.
Defined.

(** X10: Completing a task a second time with the same timestamp leaves the
    coordinator as the first completion left it, whatever the sheet
    does. *)
Theorem complete_twice {S : StrLib} (c : coordinator) (ws ws' : worksheets)
    (task_name user_id user_id' now : string) (tasks : list loc) (l : loc)
    (task : dict) :
  data c = Some tasks ->
  find_task (heap c) tasks task_name = Some (l, task) ->
  let c1 := (async_complete_task c ws task_name user_id now).1 in
  (async_complete_task c1 ws' task_name user_id' now).1 = c1.
Proof.
  intros Hd Hf c1. subst c1.
  destruct (async_complete_task_found c ws task_name user_id now tasks l task Hd Hf)
    as (rest & -> & _). cbn [fst].
  set (c1 := {| heap := _; data := _; last_update_success := _ |}).
  assert (find_task (heap c1) tasks task_name = Some (l, completed_task task now))
    as Hf1.
  { apply (find_task_insert _ _ _ _ task); [done|].
    apply completed_task_fields; done. }
  destruct (async_complete_task_found c1 ws' task_name user_id' now tasks l
              (completed_task task now) eq_refl Hf1) as (rest' & -> & _).
  cbn [fst]. subst c1. cbn [heap]. f_equal.
  rewrite list_insert_insert_eq. f_equal.
  unfold completed_task. apply map_eq. intros k.
  destruct (decide (k = "last_completed")) as [->|?]; [by simplify_map_eq|].
  destruct (decide (k = "visible")) as [->|?]; [by simplify_map_eq|].
  destruct (decide (k = "state")) as [->|?]; by simplify_map_eq.
Qed.

Lemma complete_twice_witness :
  (async_complete_task (S := ascii_text)
     (async_complete_task (S := ascii_text) Examples.two_tasks Examples.sheet_ok
        "A" "Harvey" "2024-01-01T08:00:00").1
     Examples.sheet_down "A" "Harvey" "2024-01-01T08:00:00").1
  = (async_complete_task (S := ascii_text) Examples.two_tasks Examples.sheet_ok
       "A" "Harvey" "2024-01-01T08:00:00").1.
Proof.
  apply (complete_twice (S := ascii_text) Examples.two_tasks Examples.sheet_ok Examples.sheet_down
           "A" "Harvey" "Harvey" "2024-01-01T08:00:00" [0; 1] 0
           (Examples.task_dict "A" "not_completed" true)); reflexivity.
Defined.

(** ** More on the button *)

Module ButtonMore.
Import Button.

(** X11: A press followed by reopening the task brings the store back: for
    a task that was not completed and visible, pressing its button and
    then calling [async_incomplete_pending_task] leaves every task
    dictionary and the published list as they were before the press. *)
Theorem press_then_reopen {S : StrLib} (e : entity) (c : coordinator) (tasks : list loc)
    (l : loc) (task : dict) :
  pending_state e = false ->
  data c = Some tasks ->
  find_task (heap c) tasks (task_id e) = Some (l, task) ->
  task !! "state" = Some (VStr "not_completed") ->
  task !! "visible" = Some (VBool true) ->
  let c1 := (async_press e c).1.2 in
  let c2 := (async_incomplete_pending_task c1 (task_id e)).1 in
  heap c1 !! l = Some (pending_task task)
  /\ heap c2 = heap c /\ data c2 = data c.
Proof.
  intros Hp Hd Hf Hs Hv c1 c2. subst c2 c1.
  assert (state e c = Some (VStr "not_completed")) as Hst.
  { rewrite (ButtonFacts.state_unflagged e c tasks Hp Hd), Hf.
    unfold get_d. by rewrite Hs. }
  rewrite (ButtonFacts.async_press_accepted e c tasks _ Hp Hd Hst) by done.
  rewrite Hf. cbn [fst snd].
  destruct (find_task_Some _ _ _ _ _ Hf) as (_ & Hl & _).
  assert (l < length (heap c)) as Hlt by (by apply lookup_lt_Some in Hl).
  set (c1 := {| heap := _; data := _; last_update_success := _ |}).
  assert (find_task (heap c1) tasks (task_id e) = Some (l, pending_task task)) as Hf1.
  { apply (find_task_insert _ _ _ _ task); [done|].
    unfold pending_task. by simplify_map_eq. }
  rewrite (async_incomplete_pending_task_found c1 (task_id e) tasks l
             (pending_task task) Hd Hf1).
  cbn [fst heap data]. subst c1. cbn [heap].
  split; [by apply list_lookup_insert_eq|]. split; [|done].
  rewrite list_insert_insert_eq. apply list_insert_id. rewrite Hl. f_equal.
  unfold pending_task. apply map_eq. intros k.
  destruct (decide (k = "visible")) as [->|?]; [by simplify_map_eq|].
  destruct (decide (k = "state")) as [->|?]; by simplify_map_eq.
Qed.

Lemma press_then_reopen_witness :
  heap (async_incomplete_pending_task
          (async_press (S := ascii_text) Examples.button_A Examples.two_tasks).1.2 "A").1
  = heap Examples.two_tasks.
Proof.
  destruct (press_then_reopen (S := ascii_text) Examples.button_A Examples.two_tasks [0; 1] 0
              (Examples.task_dict "A" "not_completed" true)
              eq_refl eq_refl eq_refl eq_refl eq_refl) as (_ & Hh & _).
  exact Hh.
Defined.

(** X12: Once a task is completed its button does nothing: after
    [async_complete_task] a press on the button of that task, with the
    pending flag clear, is turned away with a warning and changes neither
    the entity nor the coordinator, and fires no event. *)
Theorem press_after_complete {S : StrLib}
    (e : entity) (c : coordinator) (ws : worksheets)
    (user_id now : string) (tasks : list loc) (l : loc) (task : dict) :
  pending_state e = false ->
  data c = Some tasks ->
  find_task (heap c) tasks (task_id e) = Some (l, task) ->
  let c1 := (async_complete_task c ws (task_id e) user_id now).1 in
  state e c1 = Some (VStr "completed")
  /\ exists msg, async_press e c1 = (e, c1, [LogWarning msg]).
Proof.
  intros Hp Hd Hf c1. subst c1.
  destruct (async_complete_task_found c ws (task_id e) user_id now tasks l task Hd Hf)
    as (rest & -> & _). cbn [fst].
  set (c1 := {| heap := _; data := _; last_update_success := _ |}).
  assert (find_task (heap c1) tasks (task_id e) = Some (l, completed_task task now))
    as Hf1.
  { apply (find_task_insert _ _ _ _ task); [done|].
    apply completed_task_fields; done. }
  assert (state e c1 = Some (VStr "completed")) as Hst.
  { rewrite (ButtonFacts.state_unflagged e c1 tasks Hp eq_refl), Hf1.
    unfold get_d. by destruct (completed_task_fields task now) as (-> & _). }
  split; [done|]. apply ButtonFacts.async_press_ignored. right.
  split; [by eexists|done].
Qed.

Lemma press_after_complete_witness :
  exists msg,
    async_press (S := ascii_text) Examples.button_A
      (async_complete_task (S := ascii_text) Examples.two_tasks Examples.sheet_ok "A" "Harvey" "now").1
    = (Examples.button_A,
       (async_complete_task (S := ascii_text) Examples.two_tasks Examples.sheet_ok "A" "Harvey" "now").1,
       [LogWarning msg]).
Proof.
  destruct (press_after_complete (S := ascii_text) Examples.button_A Examples.two_tasks
              Examples.sheet_ok "Harvey" "now" [0; 1] 0
              (Examples.task_dict "A" "not_completed" true) eq_refl eq_refl eq_refl)
    as (_ & msg & Hm).
  by exists msg.
Defined.

(** X13: A press never replaces the published list and writes at most into
    the first task with the name of the button: every other task
    dictionary stays as it is.  When no task of the list has that name
    (the row has left the sheet) the press is still accepted: the store
    is unchanged, the flag is set and the press event is fired. *)
Theorem press_frame {S : StrLib} (e : entity) (c : coordinator) :
  data (async_press e c).1.2 = data c
  /\ length (heap (async_press e c).1.2) = length (heap c)
  /\ (forall tasks l task l',
        data c = Some tasks ->
        find_task (heap c) tasks (task_id e) = Some (l, task) -> l' <> l ->
        heap (async_press e c).1.2 !! l' = heap c !! l')
  /\ (forall tasks,
        pending_state e = false -> data c = Some tasks ->
        unknown_task (heap c) tasks (task_id e) ->
        async_press e c
        = (set_pending_state e true, c,
           [WriteHaState (entity_id e) (VStr "pending");
            BusFire "google_task_list_button_pressed" (event_data e)])).
Proof.
  destruct (ButtonFacts.async_press_cases e c)
    as [[msg Hi]|[Hr|(Hp & tasks & st & Hd & Hs & Hne & Ha)]].
  - rewrite Hi. cbn [fst snd]. repeat (split; [done|]).
    intros tasks Hp Hd Hu%find_task_None.
    assert (state e c = Some (VStr "not_completed")) as Hst.
    { by rewrite (ButtonFacts.state_unflagged e c tasks Hp Hd), Hu. }
    rewrite (ButtonFacts.async_press_accepted e c tasks _ Hp Hd Hst) in Hi by done.
    by rewrite Hu in Hi.
  - rewrite Hr. cbn [fst snd]. repeat (split; [done|]).
    intros tasks Hp Hd _. unfold async_press in Hr. rewrite Hp, Hd in Hr.
    unfold state, _get_task_data in Hr. rewrite Hp, Hd in Hr. simpl in Hr.
    by destruct (py_eqb _ _).
  - rewrite Ha. cbn [fst snd].
    split; [by destruct (find_task _ _ _) as [[? ?]|]|].
    split; [destruct (find_task _ _ _) as [[? ?]|]; [apply length_insert|done]|].
    split.
    + intros tasks' l task l' Hd' Hf Hl'. rewrite Hd in Hd'. injection Hd' as <-.
      rewrite Hf. cbn [heap]. by rewrite list_lookup_insert_ne.
    + intros tasks' _ Hd' Hu%find_task_None. rewrite Hd in Hd'. injection Hd' as <-.
      by rewrite Hu.
Qed.

Lemma press_frame_witness :
  heap (async_press (S := ascii_text) Examples.button_A Examples.two_tasks).1.2 !! 1
  = heap Examples.two_tasks !! 1.
Proof.
  destruct (press_frame (S := ascii_text) Examples.button_A Examples.two_tasks) as (_ & _ & Hf & _).
  apply (Hf [0; 1] 0 (Examples.task_dict "A" "not_completed" true) 1);
    [reflexivity|reflexivity|discriminate].
Defined.

End ButtonMore.

(** ** Identifiers built from the task name *)

Module IdentifierFacts.
Import Button.

Lemma string_forall_app (P : ascii -> Prop) (s t : string) :
  string_forall P s -> string_forall P t -> string_forall P (String.append s t).
Proof.
  induction s as [|c s IH]; simpl.
  - intros _ Ht. exact Ht.
  - intros [Hc Hs] Ht. split; [exact Hc|by apply IH].
Qed.

Lemma string_forall_impl (P Q : ascii -> Prop) (s : string) :
  (forall c, P c -> Q c) -> string_forall P s -> string_forall Q s.
Proof.
  intros HPQ. induction s as [|c s IH]; simpl; [done|].
  intros [Hc Hs]. split; [by apply HPQ|by apply IH].
Qed.

Lemma string_forall_and (P Q : ascii -> Prop) (s : string) :
  string_forall P s -> string_forall Q s -> string_forall (fun c => P c /\ Q c) s.
Proof.
  induction s as [|c s IH]; simpl; [done|].
  intros [Hc Hs] [Hc' Hs']. split; [done|by apply IH].
Qed.

(** After [s.replace(a, b)] with another character [b], no [a] is left. *)
Lemma replace_char_removes (a b : ascii) (s : string) :
  b <> a -> string_forall (fun c => c <> a) (replace_char a b s).
Proof.
  intros Hne. induction s as [|c s IH]; simpl; [done|]. split; [|done].
  destruct (Ascii.eqb c a) eqn:Heq; [done|]. by apply Ascii.eqb_neq.
Qed.

(** [s.replace(a, b)] keeps what holds of the characters of [s] and of
    [b]. *)
Lemma replace_char_keeps (P : ascii -> Prop) (a b : ascii) (s : string) :
  P b -> string_forall P s -> string_forall P (replace_char a b s).
Proof.
  intros Hb. induction s as [|c s IH]; simpl; [done|].
  intros [Hc Hs]. split; [by destruct (Ascii.eqb c a)|by apply IH].
Qed.

Lemma slug_no_space_hyphen {S : StrLib} (s : string) :
  string_forall no_space_hyphen (slug s).
Proof.
  unfold slug, no_space_hyphen. apply string_forall_and.
  - apply replace_char_keeps; [discriminate|].
    apply replace_char_removes. discriminate.
  - apply replace_char_removes. discriminate.
Qed.

Lemma slug_no_capital {S : StrLib} (s : string) :
  case_laws -> string_forall no_capital (slug s).
Proof.
  intros (Hlower & _). unfold slug.
  do 2 (apply replace_char_keeps; [reflexivity|]). apply Hlower.
Qed.

(** X14: The identifiers of a button: the entity id is [button.] followed by
    a slug without spaces and hyphens, whatever the task name and the
    prefix are, the unique id is the entry id, an underscore and the same
    slug, and the action id of its press event is [CONFIRM_] followed by
    the raised task name with its spaces replaced.  Given that a lowered
    string has no ASCII capital, a raised string no ASCII small letter,
    and raising brings in no space, the slug has no ASCII capital and the
    action id neither spaces nor ASCII small letters. *)
Theorem entity_identifiers {S : StrLib} (c : coordinator) (entry_id task_id
    category entity_prefix : string) (e : entity) :
  new_entity c entry_id task_id category entity_prefix = Some e ->
  exists full_slug action,
    entity_id e = String.append "button." full_slug
    /\ unique_id e = String.append entry_id (String.append "_" full_slug)
    /\ string_forall no_space_hyphen full_slug
    /\ event_data e !! "action_id" = Some (VStr (String.append "CONFIRM_" action))
    /\ Button.task_id e = task_id /\ pending_state e = false
    /\ (case_laws ->
        string_forall no_capital full_slug
        /\ string_forall no_space action /\ string_forall no_small action).
Proof.
  unfold new_entity, _update_internal_state. cbv zeta.
  cbn [Button.task_id Button.category Button.entity_id Button.unique_id
       pending_state].
  destruct (_get_task_data c task_id) as [task_data|];
    cbn [mbind option_bind]; [|done].
  intros [= <-]. cbn [Button.entity_id Button.unique_id Button.task_id pending_state].
  eexists _, _. split; [reflexivity|]. split; [reflexivity|]. split.
  { destruct (negb _).
    - apply string_forall_app; [apply slug_no_space_hyphen|].
      apply string_forall_app; [|apply slug_no_space_hyphen].
      simpl. split; [|done]. split; discriminate.
    - apply slug_no_space_hyphen. }
  split; [unfold event_data; by simplify_map_eq|].
  split; [done|]. split; [done|].
  intros Hlaws. split.
  { destruct (negb _).
    - apply string_forall_app; [by apply slug_no_capital|].
      apply string_forall_app; [|by apply slug_no_capital].
      simpl. split; [reflexivity|done].
    - by apply slug_no_capital. }
  destruct Hlaws as (_ & Hsmall & Hspace). cbn [Button.task_id].
  split; [|apply Hsmall].
  apply Hspace. apply replace_char_removes. discriminate.
Qed.

Lemma ascii_text_case_laws : case_laws (S := ascii_text).
Proof.
  assert (forall c, no_capital (lower_ascii c)) as Hl.
  { intros c. destruct c as [[] [] [] [] [] [] [] []]; reflexivity. }
  assert (forall c, no_small (upper_ascii c)) as Hu.
  { intros c. destruct c as [[] [] [] [] [] [] [] []]; reflexivity. }
  assert (forall c, no_space c -> no_space (upper_ascii c)) as Hs.
  { intros c. destruct c as [[] [] [] [] [] [] [] []]; vm_compute; congruence. }
  split; [|split].
  - intros s. induction s as [|c s IH]; simpl; [done|]. by split.
  - intros s. induction s as [|c s IH]; simpl; [done|]. by split.
  - intros s. induction s as [|c s IH]; simpl; [done|].
    intros [Hc Hrest]. split; [by apply Hs|by apply IH].
Qed.

Lemma entity_identifiers_witness :
  exists full_slug,
    Button.entity_id Examples.button_A = String.append "button." full_slug
    /\ string_forall no_space_hyphen full_slug
    /\ string_forall no_capital full_slug.
Proof.
  destruct (entity_identifiers (S := ascii_text) Examples.two_tasks "entry" "A"
              "PT Tasks" "H_Chore" Examples.button_A)
    as (full_slug & action & He & _ & Hs & _ & _ & _ & Hlaws).
  - vm_compute. reflexivity.
  - exists full_slug. split; [done|]. split; [done|].
    by destruct (Hlaws ascii_text_case_laws) as [Hc _].
Defined.

End IdentifierFacts.

(** ** More on reconciliation *)

Section ReconciliationMore.
Context `{TimeLib}.

Lemma reactivate_state (now : datetime) (task : dict) :
  due_again now task = true ->
  reactivate now task !! "state" = Some (VStr "not_completed").
Proof. intros Hd. unfold reactivate. rewrite Hd. by simplify_map_eq. Qed.

Lemma reactivate_idemp (now : datetime) (task : dict) :
  reactivate now (reactivate now task) = reactivate now task.
Proof.
  destruct (due_again now task) eqn:Hd.
  - pose proof (reactivate_state now task Hd) as Hs.
    unfold reactivate at 1.
    assert (due_again now (reactivate now task) = false) as ->; [|done].
    unfold due_again, get. rewrite Hs. done.
  - unfold reactivate. by rewrite !Hd.
Qed.

Lemma reactivate_merge_keys (by_name : gmap value dict) (now : datetime)
    (task : dict) :
  let r := reactivate now (merge_task by_name task) in
  is_Some (r !! "state") /\ is_Some (r !! "visible")
  /\ forall k, k <> "state" -> k <> "visible" -> r !! k = task !! k.
Proof.
  cbv zeta. split; [|split].
  - unfold reactivate. destruct (due_again _ _); [by simplify_map_eq|].
    rewrite merge_task_state. by eexists.
  - unfold reactivate. destruct (due_again _ _); [by simplify_map_eq|].
    rewrite merge_task_visible. by eexists.
  - intros k Hs Hv. rewrite reactivate_content by done. by apply merge_task_content.
Qed.

(** Merging a fresh row against a previous task that already is the
    result for that row gives that result again. *)
Lemma merge_task_fixed (by_name : gmap value dict) (task r : dict) :
  previous_task_of by_name task = r ->
  is_Some (r !! "state") -> is_Some (r !! "visible") ->
  (forall k, k <> "state" -> k <> "visible" -> r !! k = task !! k) ->
  merge_task by_name task = r.
Proof.
  intros Hp [s Hs] [v Hv] Hk. unfold merge_task. cbv zeta. rewrite Hp.
  unfold get_d. rewrite Hs, Hv. simpl. apply map_eq. intros k.
  destruct (decide (k = "visible")) as [->|?]; [by simplify_map_eq|].
  destruct (decide (k = "state")) as [->|?]; [by simplify_map_eq|].
  rewrite !lookup_insert_ne by done. by rewrite Hk.
Qed.

(** X15: A second reconciliation against the same rows and the same readings
    of the clock changes nothing: when the fresh rows have pairwise
    different names, reconciling them against the result of their own
    reconciliation gives that result again. *)
Theorem update_tasks_idempotent (prev : list dict) (clock : nat -> datetime)
    (raw_tasks : list dict) :
  distinct_names raw_tasks ->
  update_tasks (update_tasks prev clock raw_tasks) clock raw_tasks
  = update_tasks prev clock raw_tasks.
Proof.
  intros [Hnamed Hnd].
  set (out := update_tasks prev clock raw_tasks).
  apply list_eq. intros i.
  destruct (raw_tasks !! i) as [task|] eqn:Hi.
  2: { apply lookup_ge_None_1 in Hi. subst out.
       rewrite !lookup_ge_None_2; [done|..]; by rewrite !update_tasks_length. }
  rewrite (update_tasks_lookup out clock raw_tasks i task Hi).
  pose proof (update_tasks_lookup prev clock raw_tasks i task Hi) as Hout.
  fold out in Hout. rewrite Hout.
  set (r := reactivate (clock i) (merge_task (previous_data_by_name prev) task)) in *.
  destruct (reactivate_merge_keys (previous_data_by_name prev) (clock i) task)
    as (Hs & Hv & Hk). fold r in Hs, Hv, Hk.
  assert (is_Some (task !! "task")) as [n Hn].
  { rewrite Forall_forall in Hnamed. apply Hnamed.
    by apply (list_elem_of_lookup_2 _ i). }
  assert (forall j t, raw_tasks !! j = Some t ->
            forall p, out !! j = Some p -> is_Some (t !! "task") ->
            filed_name p = fresh_name t) as Hname.
  { intros j t Hj p Hp [m Hm]. unfold out in Hp.
    rewrite (update_tasks_lookup prev clock raw_tasks j t Hj) in Hp.
    injection Hp as <-.
    destruct (reactivate_merge_keys (previous_data_by_name prev) (clock j) t)
      as (_ & _ & Hkj).
    unfold filed_name, fresh_name, get, get_d. by rewrite Hkj, Hm. }
  assert (previous_task_of (previous_data_by_name out) task = r) as Hprev.
  { apply previous_task_of_last. exists i. split; [done|]. split.
    - apply py_eqb_hash_key. f_equal. apply (Hname i task Hi r Hout). by eexists.
    - intros j' p' Hlt Hp'. apply py_eqb_false_hash_key.
      destruct (raw_tasks !! j') as [t'|] eqn:Hj'.
      2: { apply lookup_lt_Some in Hp'. subst out.
           rewrite update_tasks_length in Hp'.
           apply lookup_ge_None_1 in Hj'. lia. }
      rewrite (Hname j' t' Hj' p' Hp').
      2: { rewrite Forall_forall in Hnamed. apply Hnamed.
           by apply (list_elem_of_lookup_2 _ j'). }
      intros Heq.
      assert (j' = i); [|lia].
      apply (NoDup_lookup _ j' i (hash_key (fresh_name task)) Hnd).
      + by rewrite list_lookup_fmap, Hj', <- Heq.
      + by rewrite list_lookup_fmap, Hi. }
  rewrite (merge_task_fixed _ task r Hprev Hs Hv Hk).
  subst r. by rewrite reactivate_idemp.
Qed.

End ReconciliationMore.

Lemma update_tasks_idempotent_witness :
  @update_tasks day_clock
    (@update_tasks day_clock [] (fun _ => 10%Z)
       [Examples.task_dict "A" "completed" false])
    (fun _ => 10%Z) [Examples.task_dict "A" "completed" false]
  = @update_tasks day_clock [] (fun _ => 10%Z)
      [Examples.task_dict "A" "completed" false].
Proof.
  apply (update_tasks_idempotent (H := day_clock)). split.
  - apply Forall_cons. split; [by eexists|apply Forall_nil_2].
  - simpl. apply NoDup_singleton.
Defined.

(** ** An invariant of the published list *)

Lemma task_ok_insert_state (task : dict) (v : value) :
  task_ok task -> task_ok (<["state" := v]> task).
Proof.
  intros (Ht & Hs & Hv). unfold task_ok.
  rewrite lookup_insert_eq, !lookup_insert_ne by done. split; [done|]. by split.
Qed.

Lemma task_ok_insert_visible (task : dict) (v : value) :
  task_ok task -> task_ok (<["visible" := v]> task).
Proof.
  intros (Ht & Hs & Hv). unfold task_ok.
  rewrite lookup_insert_eq, !lookup_insert_ne by done. split; [done|]. by split.
Qed.

Lemma task_ok_insert_last_completed (task : dict) (v : value) :
  task_ok task -> task_ok (<["last_completed" := v]> task).
Proof.
  intros (Ht & Hs & Hv). unfold task_ok. by rewrite !lookup_insert_ne.
Qed.

Lemma published_ok_insert (c : coordinator) (tasks : list loc) (l : loc)
    (task' : dict) (b : bool) :
  published_ok c -> data c = Some tasks -> task_ok task' ->
  published_ok {| heap := <[l := task']> (heap c); data := Some tasks;
                  last_update_success := b |}.
Proof.
  intros Hok Hd Hnew tasks' l' [= <-] Hin. cbn [heap].
  destruct (Hok tasks l' Hd Hin) as (t & Hl' & Ht).
  destruct (decide (l' = l)) as [->|Hne].
  - exists task'. split; [|done]. apply list_lookup_insert_eq.
    by apply lookup_lt_Some in Hl'.
  - exists t. by rewrite list_lookup_insert_ne.
Qed.

Section InvariantFacts.
Context `{TimeLib}.
Import Button.

(** X16: Every task of a published list has a name, a state and a
    visibility.  A successful refresh publishes such a list whatever was
    there before; a failed refresh, a completion, a reopening and a
    press keep the property. *)
Theorem published_ok_kept {S : StrLib} :
  (forall c f clock raw_tasks,
     fetch_tasks f = Ok raw_tasks -> published_ok (async_refresh c f clock).1)
  /\ (forall c f clock, published_ok c -> published_ok (async_refresh c f clock).1)
  /\ (forall c ws task_name user_id now,
        published_ok c ->
        published_ok (async_complete_task c ws task_name user_id now).1)
  /\ (forall c task_name,
        published_ok c -> published_ok (async_incomplete_pending_task c task_name).1)
  /\ (forall e c, published_ok c -> published_ok (async_press e c).1.2).
Proof.
  assert (forall c f clock raw_tasks,
            fetch_tasks f = Ok raw_tasks ->
            published_ok (async_refresh c f clock).1) as Hfresh.
  { intros c f clock raw_tasks Hf.
    rewrite (async_refresh_success c f clock raw_tasks Hf). cbn [fst].
    intros tasks l [= <-] [Hge Hlt]%elem_of_seq. cbn [heap].
    rewrite lookup_app_r by done.
    rewrite update_tasks_length in Hlt.
    destruct (raw_tasks !! (l - length (heap c))) as [task|] eqn:Hi.
    2: { apply lookup_ge_None_1 in Hi. lia. }
    rewrite (update_tasks_lookup _ clock raw_tasks _ task Hi).
    eexists. split; [done|].
    destruct (reactivate_merge_keys (previous_data_by_name (previous_tasks c))
                (clock (l - length (heap c))) task) as (Hs & Hv & Hk).
    split; [|by split]. rewrite Hk by done.
    destruct f as [?|?|rows]; simpl in Hf; try done.
    rewrite SheetsFacts.get_tasks_eq in Hf. destruct rows as [|r0 rows0] eqn:Hr; [done|].
    rewrite <- Hr in Hf. injection Hf as <-.
    rewrite list_lookup_fmap in Hi.
    destruct (rows !! (l - length (heap c))) as [row|]; [|done].
    injection Hi as <-.
    destruct (SheetsFacts.clean_task_known row) as (-> & _). by eexists. }
  split; [exact Hfresh|]. split; [|split; [|split]].
  - intros c f clock Hok.
    destruct (fetch_tasks f) as [raw_tasks|e] eqn:Hf; [by eapply Hfresh|].
    unfold async_refresh, _async_update_data. rewrite Hf. cbn [fst].
    intros tasks l Hd Hin. by apply (Hok tasks l).
  - intros c ws task_name user_id now Hok.
    destruct (data c) as [tasks|] eqn:Hd.
    2: { unfold async_complete_task. by rewrite Hd. }
    destruct (find_task (heap c) tasks task_name) as [[l task]|] eqn:Hf.
    2: { unfold async_complete_task. by rewrite Hd, Hf. }
    destruct (async_complete_task_found c ws task_name user_id now tasks l task Hd Hf)
      as (rest & -> & _). cbn [fst].
    apply published_ok_insert; [done..|].
    destruct (find_task_Some _ _ _ _ _ Hf) as (Hin & Hl & _).
    destruct (Hok tasks l Hd Hin) as (t & Hl' & Ht).
    rewrite Hl in Hl'. injection Hl' as <-.
    by apply task_ok_insert_last_completed, task_ok_insert_visible,
      task_ok_insert_state.
  - intros c task_name Hok.
    destruct (data c) as [tasks|] eqn:Hd.
    2: { unfold async_incomplete_pending_task. by rewrite Hd. }
    destruct (find_task (heap c) tasks task_name) as [[l task]|] eqn:Hf.
    2: { unfold async_incomplete_pending_task. by rewrite Hd, Hf. }
    rewrite (async_incomplete_pending_task_found c task_name tasks l task Hd Hf).
    cbn [fst]. apply published_ok_insert; [done..|].
    destruct (find_task_Some _ _ _ _ _ Hf) as (Hin & Hl & _).
    destruct (Hok tasks l Hd Hin) as (t & Hl' & Ht).
    rewrite Hl in Hl'. injection Hl' as <-.
    by apply task_ok_insert_visible, task_ok_insert_state.
  - intros e c Hok.
    destruct (ButtonFacts.async_press_cases e c)
      as [[msg ->]|[->|(_ & tasks & st & Hd & _ & _ & ->)]]; [done..|].
    cbn [fst snd].
    destruct (find_task (heap c) tasks (task_id e)) as [[l task]|] eqn:Hf; [|done].
    rewrite Hd. apply published_ok_insert; [done..|].
    destruct (find_task_Some _ _ _ _ _ Hf) as (Hin & Hl & _).
    destruct (Hok tasks l Hd Hin) as (t & Hl' & Ht).
    rewrite Hl in Hl'. injection Hl' as <-.
    by apply task_ok_insert_visible, task_ok_insert_state.
Qed.

End InvariantFacts.

Lemma published_ok_kept_witness :
  published_ok
    (async_refresh (S := ascii_text) (H := day_clock) Examples.two_tasks
       (Records [[("Task", VStr "A")]]) (fun _ => 10%Z)).1.
Proof.
  destruct (published_ok_kept (S := ascii_text) (H := day_clock)) as (Hfresh & _).
  apply (Hfresh _ _ _ [Sheets.clean_task (S := ascii_text) [("Task", VStr "A")]]).
  reflexivity.
Defined.

(** ** The listeners of the coordinator *)

Module ListenerFacts.
Import Button System.

Lemma handle_coordinator_update_Some (e : entity) (c : coordinator)
    (tasks : list loc) :
  data c = Some tasks ->
  let task_data := match find_task (heap c) tasks (task_id e) with
                   | Some (_, task) => task
                   | None => ∅
                   end in
  exists e' evs, _handle_coordinator_update e c = Some (e', evs)
    /\ pending_state e' = false /\ task_id e' = task_id e
    /\ entity_id e' = entity_id e
    /\ extra_state_attributes e' = <["category" := VStr (category e)]> task_data
    /\ state e' c = Some (get_d task_data "state" (VStr "not_completed")).
Proof.
  intros Hd task_data.
  unfold _handle_coordinator_update, _update_internal_state, _get_task_data.
  cbn [task_id set_pending_state category]. rewrite Hd. cbn [mbind option_bind].
  unfold state, _get_task_data. cbn [pending_state task_id]. rewrite Hd.
  cbn [mbind option_bind]. by eexists _, _.
Qed.

(** X17: Every publication by a completion or a reopening reaches all
    buttons: afterwards every button has its pending flag clear, shows
    the state of its task in the list (or [not_completed] when the list
    has no such task), and carries the fields of that task as
    attributes, with [category] always set to the category of the
    integration, also when the sheet has a column of that name. *)
Theorem publish_resets_buttons {S : StrLib}
    (s : system) (cmd : command) (tasks : list loc)
    (task_name : string) (l : loc) (task : dict) :
  data (coord s) = Some tasks ->
  find_task (heap (coord s)) tasks task_name = Some (l, task) ->
  (exists ws user_id now, cmd = Complete ws task_name user_id now)
  \/ cmd = Incomplete task_name ->
  let s' := step s cmd in
  length (entities s') = length (entities s)
  /\ forall i e', entities s' !! i = Some e' ->
       pending_state e' = false
       /\ extra_state_attributes e' !! "category" = Some (VStr (category e'))
       /\ exists e, entities s !! i = Some e /\ task_id e' = task_id e
            /\ state e' (coord s')
               = Some (get_d (match find_task (heap (coord s')) tasks (task_id e) with
                              | Some (_, t) => t
                              | None => ∅
                              end) "state" (VStr "not_completed")).
Proof.
  intros Hd Hf Hcmd s'.
  assert (exists c' evs,
            s' = {| coord := c'; entities := notify c' (entities s);
                    trace := trace s ++ evs |}
            /\ data c' = Some tasks) as (c' & evs & -> & Hd').
  { subst s'. destruct Hcmd as [(ws & user_id & now & ->)| ->]; unfold step.
    - destruct (async_complete_task_found (coord s) ws task_name user_id now
                  tasks l task Hd Hf) as (rest & -> & _).
      by eexists _, _.
    - rewrite (async_incomplete_pending_task_found (coord s) task_name
                 tasks l task Hd Hf). by eexists _, _. }
  cbn [entities coord]. unfold notify. split; [by rewrite length_map|].
  intros i e' Hi. rewrite list_lookup_fmap in Hi.
  destruct (entities s !! i) as [e|] eqn:He; [|done]. simpl in Hi.
  destruct (handle_coordinator_update_Some e c' tasks Hd')
    as (e1 & evs1 & Hh & Hp & Ht & _ & Ha & Hs).
  rewrite Hh in Hi. injection Hi as <-.
  split; [done|]. split.
  - rewrite Ha.
    assert (category e1 = category e) as ->; [|by simplify_map_eq].
    unfold _handle_coordinator_update, _update_internal_state in Hh.
    destruct (_get_task_data _ _); [|done]. simpl in Hh.
    destruct (state _ _); [|done]. simpl in Hh. by injection Hh as <- _.
  - exists e. by repeat split.
Qed.

Lemma publish_resets_buttons_witness :
  exists e',
    entities (run (S := ascii_text) Examples.two_tasks_system
                [Press 0; Complete Examples.sheet_ok "B" "Harvey" "now"]) !! 0
    = Some e'
    /\ pending_state e' = false.
Proof.
  destruct (publish_resets_buttons (S := ascii_text) (step (S := ascii_text) Examples.two_tasks_system (Press 0))
              (Complete Examples.sheet_ok "B" "Harvey" "now") [0; 1] "B" 1
              (Examples.task_dict "B" "not_completed" true)) as [_ Hall].
  - reflexivity.
  - vm_compute. reflexivity.
  - left. by eexists _, _, _.
  - eexists. split; [vm_compute; reflexivity|].
    match goal with
    | |- pending_state ?e = false =>
        destruct (Hall 0 e) as [Hp _]; [vm_compute; reflexivity|exact Hp]
    end.
Defined.

End ListenerFacts.

(** ** More on the five-minute schedule *)

Module ScheduleMore.
Import Schedule.
Local Open Scope Z_scope.

(** The scheduled time is the start of the five-minute slot that
    follows the slot of [now]. *)
Lemma schedule_slot (now : utc_datetime) :
  valid now -> before_last_five_minutes now ->
  exists next_run k, _schedule_five_minutely_refresh now = Some next_run
    /\ valid next_run /\ on_boundary next_run
    /\ instant next_run = 300000000 * k
    /\ instant next_run <= instant now + 300000000 < instant next_run + 300000000.
Proof.
  intros Hv Hlt.
  destruct (ScheduleFacts.dt_add_five_minutes now Hv Hlt) as (nr & Hadd & Hvn & Hin).
  unfold _schedule_five_minutely_refresh. rewrite Hadd. cbn [mbind option_bind].
  set (r := replace_minute _ _).
  assert (valid r /\ on_boundary r
          /\ instant r <= instant nr < instant r + 300000000) as (Hvr & Hbr & Hir).
  { subst r. unfold valid, on_boundary, instant, replace_minute,
      replace_second_microsecond in *.
    cbn [ordinal hour minute second microsecond].
    Z.to_euclidean_division_equations. lia. }
  destruct (ScheduleFacts.boundary_multiple r Hbr) as [k Hk].
  exists r, k. repeat (split; [done|]). lia.
Qed.

(** X18: The next refresh is never more than five minutes away, and exactly
    five minutes away when [now] itself is on a five-minute boundary: a
    loop whose calls come on time refreshes every five minutes. *)
Theorem next_refresh_within_five_minutes (now : utc_datetime) :
  valid now -> before_last_five_minutes now ->
  exists next_run, _schedule_five_minutely_refresh now = Some next_run
    /\ instant now < instant next_run <= instant now + 300000000
    /\ (on_boundary now -> instant next_run = instant now + 300000000).
Proof.
  intros Hv Hlt.
  destruct (schedule_slot now Hv Hlt) as (r & k & Hr & _ & _ & Hk & Hin).
  exists r. split; [done|]. split; [lia|].
  intros Hb. destruct (ScheduleFacts.boundary_multiple now Hb) as [k0 Hk0]. lia.
Qed.

Lemma next_refresh_within_five_minutes_witness :
  exists next_run,
    _schedule_five_minutely_refresh
      {| ordinal := 738886; hour := 10; minute := 15; second := 0; microsecond := 0 |}
    = Some next_run
    /\ instant next_run
       = instant {| ordinal := 738886; hour := 10; minute := 15; second := 0;
                    microsecond := 0 |} + 300000000.
Proof.
  destruct (next_refresh_within_five_minutes
              {| ordinal := 738886; hour := 10; minute := 15; second := 0;
                 microsecond := 0 |}) as (r & Hr & _ & Hb).
  - unfold valid, MAXORDINAL. simpl. lia.
  - unfold before_last_five_minutes, instant, MAXORDINAL. simpl. lia.
  - exists r. split; [done|]. apply Hb. by repeat split.
Defined.

(** X19: A later reading of the clock never gives an earlier refresh. *)
Theorem next_refresh_monotone (now1 now2 next1 next2 : utc_datetime) :
  valid now1 -> valid now2 ->
  before_last_five_minutes now1 -> before_last_five_minutes now2 ->
  instant now1 <= instant now2 ->
  _schedule_five_minutely_refresh now1 = Some next1 ->
  _schedule_five_minutely_refresh now2 = Some next2 ->
  instant next1 <= instant next2.
Proof.
  intros Hv1 Hv2 Hl1 Hl2 Hle H1 H2.
  destruct (schedule_slot now1 Hv1 Hl1) as (r1 & k1 & Hr1 & _ & _ & Hk1 & Hin1).
  destruct (schedule_slot now2 Hv2 Hl2) as (r2 & k2 & Hr2 & _ & _ & Hk2 & Hin2).
  rewrite H1 in Hr1. rewrite H2 in Hr2.
  injection Hr1 as <-. injection Hr2 as <-. lia.
Qed.

Lemma next_refresh_monotone_witness :
  instant {| ordinal := 738886; hour := 10; minute := 20; second := 0; microsecond := 0 |}
  <= instant {| ordinal := 738887; hour := 0; minute := 0; second := 0; microsecond := 0 |}.
Proof.
  apply (next_refresh_monotone
           {| ordinal := 738886; hour := 10; minute := 15; second := 0; microsecond := 0 |}
           {| ordinal := 738886; hour := 23; minute := 59; second := 30;
              microsecond := 250 |}).
  - unfold valid, MAXORDINAL. simpl. lia.
  - unfold valid, MAXORDINAL. simpl. lia.
  - unfold before_last_five_minutes, instant, MAXORDINAL. simpl. lia.
  - unfold before_last_five_minutes, instant, MAXORDINAL. simpl. lia.
  - unfold instant. simpl. lia.
  - reflexivity.
  - reflexivity.
Defined.

End ScheduleMore.

(** ** The refresh loop *)

Section LoopFacts.
Context `{TimeLib}.

Lemma stopped_tick {S : StrLib} (s : refresh_loop) (f : fetch) (clock : nat -> datetime)
    (utc_now : Schedule.utc_datetime) :
  stop_refresh s = true ->
  _handle_scheduled_refresh s f clock utc_now
  = ({| loop_coord := loop_coord s; stop_refresh := true; next_refresh := None |}, []).
Proof. intros Hs. unfold _handle_scheduled_refresh. by rewrite Hs. Qed.

Lemma run_loop_snoc {S : StrLib} (s : refresh_loop)
    (ticks : list (fetch * (nat -> datetime) * Schedule.utc_datetime))
    (tick : fetch * (nat -> datetime) * Schedule.utc_datetime) :
  run_loop s (ticks ++ [tick])
  = let '(s', evs') :=
      _handle_scheduled_refresh (run_loop s ticks).1 tick.1.1 tick.1.2 tick.2 in
    (s', (run_loop s ticks).2 ++ evs').
Proof. unfold run_loop. by rewrite foldl_snoc. Qed.

(** X21: After the entry has been unloaded the loop is over: however often
    the host still calls [_handle_scheduled_refresh], the sheet is not
    fetched, nothing is published, no warning or error is logged (each
    call only logs the information that the refresh is skipped), the
    coordinator keeps its data, and after the first such call no further
    call is registered. *)
Theorem unloaded_loop_never_refreshes {S : StrLib} (s : refresh_loop)
    (ticks : list (fetch * (nat -> datetime) * Schedule.utc_datetime)) :
  let stopped := async_unload_entry true s in
  loop_coord (run_loop stopped ticks).1 = loop_coord s
  /\ (run_loop stopped ticks).2 = []
  /\ stop_refresh (run_loop stopped ticks).1 = true
  /\ (ticks <> [] -> next_refresh (run_loop stopped ticks).1 = None).
Proof.
  cbv zeta. induction ticks as [|tick ticks IH] using rev_ind; [done|].
  destruct IH as (Hc & He & Hs & _).
  rewrite run_loop_snoc, (stopped_tick _ _ _ _ Hs). cbn [fst snd].
  rewrite Hc, He. by repeat split.
Qed.

(** X22: As long as the flag is clear the loop goes on whatever the refresh
    met: after a call of [_handle_scheduled_refresh] the next call is
    registered for the five-minute boundary that follows the reading of
    the clock, also when the fetch has failed, and the coordinator is the
    one that [async_refresh] left. *)
Theorem running_loop_reschedules {S : StrLib} (s : refresh_loop) (f : fetch)
    (clock : nat -> datetime) (utc_now : Schedule.utc_datetime) :
  stop_refresh s = false ->
  Schedule.valid utc_now -> before_last_five_minutes utc_now ->
  let r := _handle_scheduled_refresh s f clock utc_now in
  loop_coord r.1 = (async_refresh (loop_coord s) f clock).1
  /\ r.2 = (async_refresh (loop_coord s) f clock).2
  /\ stop_refresh r.1 = false
  /\ exists next_run, next_refresh r.1 = Some next_run
       /\ on_boundary next_run
       /\ (Schedule.instant utc_now < Schedule.instant next_run
           <= Schedule.instant utc_now + 300000000)%Z.
Proof.
  intros Hs Hv Hb r. subst r. unfold _handle_scheduled_refresh. rewrite Hs.
  destruct (async_refresh (loop_coord s) f clock) as [c evs].
  destruct (ScheduleMore.schedule_slot utc_now Hv Hb)
    as (next_run & k & -> & _ & Hon & _ & Hin).
  cbn [fst snd loop_coord stop_refresh next_refresh].
  repeat (split; [done|]). exists next_run. split; [done|]. split; [done|].
  destruct (ScheduleFacts.boundary_multiple next_run Hon) as [k' Hk']. lia.
Qed.

(** Without a successful unload the loop is as it was. *)
Lemma failed_unload_keeps_loop (s : refresh_loop) :
  async_unload_entry false s = s.
Proof. done. Qed.

End LoopFacts.

Lemma running_loop_reschedules_witness :
  stop_refresh
    (_handle_scheduled_refresh (S := ascii_text) (H := day_clock)
       {| loop_coord := Examples.two_tasks; stop_refresh := false;
          next_refresh := None |}
       (Records []) (fun _ => 10%Z)
       {| Schedule.ordinal := 738886; Schedule.hour := 10; Schedule.minute := 15;
          Schedule.second := 0; Schedule.microsecond := 0 |}).1 = false.
Proof.
  destruct (running_loop_reschedules (S := ascii_text) (H := day_clock)
              {| loop_coord := Examples.two_tasks; stop_refresh := false;
                 next_refresh := None |}
              (Records []) (fun _ => 10%Z)
              {| Schedule.ordinal := 738886; Schedule.hour := 10;
                 Schedule.minute := 15; Schedule.second := 0;
                 Schedule.microsecond := 0 |}) as (_ & _ & Hs & _).
  - reflexivity.
  - unfold Schedule.valid, Schedule.MAXORDINAL. simpl. lia.
  - unfold before_last_five_minutes, Schedule.instant, Schedule.MAXORDINAL. simpl. lia.
  - exact Hs.
Defined.

(** ** More on the recurrence evaluator *)

Section RecurrenceMore.
Context `{TimeLib}.

(** X23: A task that is due stays due: when [dt_leb] is transitive, as the
    order of datetimes is, and two readings of the clock are in the same
    time zone, a task due at the earlier reading is due at the later
    one, for every expression and every last completion. *)
Theorem cron_run_required_stays_due (cron last : value) (now1 now2 : datetime) :
  (forall a b c, dt_leb a b = true -> dt_leb b c = true -> dt_leb a c = true) ->
  dt_tzinfo now1 = dt_tzinfo now2 ->
  dt_leb now1 now2 = true ->
  cron_run_required cron last now1 = true ->
  cron_run_required cron last now2 = true.
Proof.
  intros Htrans Htz Hle. unfold cron_run_required. rewrite Htz.
  destruct (negb (truthy cron)); [done|].
  destruct (_ ≫= croniter_get_next cron) as [next_run|]; [|done].
  intros Hdue. by apply (Htrans _ now1).
Qed.

(** X24: A recurring task is never due when [croniter] rejects its
    expression, nor when its last completion is not empty and cannot be
    read as a timestamp. *)
Theorem cron_run_required_fail_closed (cron last : value) (now : datetime) :
  truthy cron = true ->
  (forall start, croniter_get_next cron start = None)
  \/ (truthy last = true
      /\ forall s, last = VStr s -> fromisoformat s = None) ->
  cron_run_required cron last now = false.
Proof.
  intros Hc Hbad. unfold cron_run_required. rewrite Hc. cbn [negb].
  destruct Hbad as [Hcron|[Hl Hparse]].
  - destruct (if truthy last then _ else _) as [start|]; [|done].
    simpl. by rewrite Hcron.
  - rewrite Hl. destruct last as [| | |s]; try done.
    by rewrite (Hparse s eq_refl).
Qed.

End RecurrenceMore.

Lemma cron_run_required_stays_due_witness :
  @cron_run_required day_clock (VStr "0 8 * * *") (VStr "") 11%Z = true.
Proof.
  apply (cron_run_required_stays_due (H := day_clock) (VStr "0 8 * * *") (VStr "")
           10%Z 11%Z).
  - intros a b c Hab Hbc. simpl in *.
    apply Z.leb_le. apply Z.leb_le in Hab. apply Z.leb_le in Hbc. lia.
  - reflexivity.
  - reflexivity.
  - reflexivity.
Defined.

Lemma cron_run_required_fail_closed_witness :
  @cron_run_required day_clock (VInt 5) (VStr "") 11%Z = false.
Proof.
  apply (cron_run_required_fail_closed (H := day_clock) (VInt 5) (VStr "") 11%Z).
  - reflexivity.
  - left. reflexivity.
Defined.

(** ** Further instances *)

Lemma get_tasks_shape_witness :
  exists normalized,
    Sheets.get_tasks (S := ascii_text) [[("Task", VStr "A")]] = Ok normalized
    /\ length normalized = 1.
Proof.
  destruct (SheetsMore.get_tasks_shape (S := ascii_text) [[("Task", VStr "A")]]) as [_ [Hne _]].
  destruct Hne as (normalized & Hn & Hlen & _); [discriminate|].
  by exists normalized.
Defined.

Lemma unloaded_loop_never_refreshes_witness :
  next_refresh
    (run_loop (S := ascii_text) (H := day_clock)
       (async_unload_entry true
          {| loop_coord := Examples.two_tasks; stop_refresh := false;
             next_refresh := None |})
       [(Records [[("Task", VStr "A")]], fun _ => 10%Z,
         {| Schedule.ordinal := 738886; Schedule.hour := 10; Schedule.minute := 15;
            Schedule.second := 0; Schedule.microsecond := 0 |})]).1
  = None.
Proof.
  destruct (unloaded_loop_never_refreshes (S := ascii_text) (H := day_clock)
              {| loop_coord := Examples.two_tasks; stop_refresh := false;
                 next_refresh := None |}
              [(Records [[("Task", VStr "A")]], fun _ => 10%Z,
                {| Schedule.ordinal := 738886; Schedule.hour := 10;
                   Schedule.minute := 15; Schedule.second := 0;
                   Schedule.microsecond := 0 |})]) as (_ & _ & _ & Hn).
  apply Hn. discriminate.
Defined.

Lemma schedule_overflow_witness :
  Schedule._schedule_five_minutely_refresh
    {| Schedule.ordinal := 3652059; Schedule.hour := 23; Schedule.minute := 57;
       Schedule.second := 0; Schedule.microsecond := 0 |} = None.
Proof.
  apply ScheduleFacts.schedule_overflow.
  - unfold Schedule.valid, Schedule.MAXORDINAL. simpl. lia.
  - unfold before_last_five_minutes, Schedule.instant, Schedule.MAXORDINAL.
    simpl. lia.
Defined.
